(** * Mastery estimation and review scheduling of the os-study skill

    A shallow embedding of [os-study/scripts/knowledge_tracker.py] (Bayesian
    Knowledge Tracing) and [os-study/scripts/spaced_scheduler.py] (SM-2
    spaced repetition), and the properties of both that the specification
    states.

    Python's [float] is IEEE 754 binary64 with round-to-nearest-even, which
    is exactly Rocq's primitive [float]; every arithmetic expression of the
    source is transcribed operation by operation, so concrete evaluations
    agree with the interpreter bit for bit.  Python's [int] is [Z].  The
    clock ([datetime.now()]) and the random draw ([random.uniform]) are
    inputs of the operations that read them. *)

From Stdlib Require Import ZArith Floats Lia List Bool.
From stdpp Require Import base option gmap strings list sorting.

Set Warnings "-inexact-float".

Local Open Scope Z_scope.

(* ===================================================================== *)
(** ** Python numbers *)
(* ===================================================================== *)

Module PyNum.

Local Open Scope float_scope.

(** [max(a, b)] on two arguments: the first is kept unless the second is
    strictly greater. *)
Definition py_max (a b : float) : float := if a <? b then b else a.

(** [min(a, b)] on two arguments: the first is kept unless the second is
    strictly smaller. *)
Definition py_min (a b : float) : float := if b <? a then b else a.

(** [float(n)] for an [int]; exact when [|n| < 2^53], correctly rounded up
    to [2^63]. *)
Definition float_of_int (n : Z) : float :=
  if (n <? 0)%Z then - of_uint63 (Uint63.of_Z (- n)) else of_uint63 (Uint63.of_Z n).

(** [a / b] on two [int]s (true division).  Python rounds the exact
    quotient once; dividing the two conversions is the same whenever both
    operands are below [2^53] in absolute value.  [None] is
    [ZeroDivisionError]. *)
Definition int_truediv (a b : Z) : option float :=
  if (b =? 0)%Z then None else Some (float_of_int a / float_of_int b).

(** [x <= y] and [x < y] as propositions. *)
Definition fle (x y : float) : Prop := (x <=? y) = true.
Definition flt (x y : float) : Prop := (x <? y) = true.

(** [x] is a number (not NaN). *)
Definition is_number (x : float) : Prop := is_nan x = false.

(** [x] is [v] to within [tol]: [abs(x - v) < tol]. *)
Definition approx (tol x v : float) : Prop := flt (abs (x - v)) tol.

(** The lexicographic order on pairs of a number and an integer. *)
Definition lex_le (a b : float * Z) : Prop :=
  flt a.1 b.1 \/ ((a.1 =? b.1) = true /\ (a.2 <= b.2)%Z).

(** A number that is not NaN is ranked by a triple of integers compared
    lexicographically: [<?] and [=?] on numbers are [<] and [=] on their
    ranks. *)
Definition rank (f : spec_float) : Z * Z * Z :=
  match f with
  | S754_zero _ => (0, 0, 0)%Z
  | S754_infinity s => (if s then -2 else 2, 0, 0)%Z
  | S754_nan => (0, 0, 0)%Z
  | S754_finite s m e => if s then (-1, - e, - Z.pos m)%Z else (1, e, Z.pos m)%Z
  end.

Definition lt3 (a b : Z * Z * Z) : Prop :=
  (a.1.1 < b.1.1 \/ (a.1.1 = b.1.1 /\
    (a.1.2 < b.1.2 \/ (a.1.2 = b.1.2 /\ a.2 < b.2))))%Z.

Definition frank (x : float) : Z * Z * Z := rank (Prim2SF x).

(** Exceptions the modelled code raises. *)
Inductive exn := ValueError | ZeroDivisionError | OverflowError.

Inductive outcome (A : Type) :=
| Ok (a : A)
| Raise (e : exn).
Arguments Ok {A} a.
Arguments Raise {A} e.

(** The builtins the scripts call whose results only reach the returned
    views or the stored review date: [round(x, ndigits)],
    [timedelta(days=x)] for a float [x], as a number of microseconds or the
    exception it raises ([ValueError] for a NaN, [OverflowError] for an
    infinity or more than 999999999 days), and [datetime.strftime] with the
    format the scheduler uses. *)
Class PyRuntime := {
  py_round : float -> Z -> float;
  timedelta_days : float -> outcome Z;
  strftime : Z -> string
}.

(** The integer part of a number, toward zero. *)
Definition float_to_Z (x : float) : Z :=
  match Prim2SF x with
  | S754_finite s m e => if s then - Z.shiftl (Z.pos m) e else Z.shiftl (Z.pos m) e
  | _ => 0
  end.

(** [modf(x)]: the fractional part of a finite number, with the sign of
    the number; a number of [2^52] or more has none. *)
Definition float_frac (x : float) : float :=
  match Prim2SF x with
  | S754_finite _ _ e => if (0 <=? e)%Z then 0 else x - float_of_int (float_to_Z x)
  | _ => 0
  end.

(** [timedelta(days=x)] as CPython's [datetime] computes it: the whole
    days exactly, the fraction of a day times the microseconds of a day in
    floating point, what is left of that rounded to the nearest microsecond
    (to the even total on a tie), and the range of [timedelta] checked on
    the days of the result. *)
Definition c_timedelta_days (x : float) : outcome Z :=
  match Prim2SF x with
  | S754_nan => Raise ValueError
  | S754_infinity _ => Raise OverflowError
  | _ =>
      let sum := (float_to_Z x * 86400000000)%Z in
      let us := float_frac x * 86400000000 in
      let sum := (sum + float_to_Z us)%Z in
      let leftover := float_frac us in
      let away : Z := if leftover <? 0 then (-1)%Z else 1%Z in
      let whole_us : Z :=
        if (leftover =? 0.5) || (leftover =? -0.5)
        then (if Z.odd sum then away else 0%Z)
        else if (0.5 <? leftover) || (leftover <? -0.5) then away
        else 0%Z in
      let total := (sum + whole_us)%Z in
      if (Z.abs (total / 86400000000) <=? 999999999)%Z then Ok total
      else Raise OverflowError
  end.

(** A runtime to evaluate examples with: no rounding of the views,
    CPython's [timedelta], no text for a date.  The properties below hold
    for every runtime. *)
Definition example_runtime : PyRuntime :=
  {| py_round := fun x _ => x;
     timedelta_days := c_timedelta_days;
     strftime := fun _ => EmptyString |}.

(** [l[-n:]] *)
Definition last_n {A} (n : nat) (l : list A) : list A :=
  drop (length l - n)%nat l.

(** An insertion-ordered [dict] with string keys, as [json.load] builds
    it: [d[k]] / [k in d], and [d[k] = v], which overwrites in place or
    appends. *)
Definition dict (V : Type) := list (string * V).

Fixpoint dict_get {V} (d : dict V) (k : string) : option V :=
  match d with
  | [] => None
  | (k', v) :: d' => if String.eqb k k' then Some v else dict_get d' k
  end.

Fixpoint dict_set {V} (d : dict V) (k : string) (v : V) : dict V :=
  match d with
  | [] => [(k, v)]
  | (k', v') :: d' =>
      if String.eqb k k' then (k', v) :: d' else (k', v') :: dict_set d' k v
  end.

End PyNum.

Import PyNum.

(* ===================================================================== *)
(** ** knowledge_tracker.py *)
(* ===================================================================== *)

Module knowledge_tracker.

Local Open Scope float_scope.

(** [DEFAULT_PARAMS] *)
Definition p_init : float := 0.3.
Definition p_learn : float := 0.1.
Definition p_slip : float := 0.1.
Definition p_guess : float := 0.2.

Definition MASTERY_THRESHOLD : float := 0.95.

(** [class TopicState(TypedDict)]: the four keys are required, so a stored
    state always answers [state.get(key, default)] with its own value. *)
Record TopicState := mkTopicState {
  p_known : float;
  attempts : Z;
  correct : Z;
  difficulty : Z
}.

(** The progress object: a JSON object whose ["topics"] key may be
    missing.  [PROGRESS_FILE] holds one, or does not exist. *)
Definition progress := option (dict TopicState).
Definition progress_file := option progress.

(** [load_progress()] *)
Definition load_progress (file : progress_file) : progress :=
  match file with
  | None => Some []
  | Some p => p
  end.

(** [save_progress(progress)] *)
Definition save_progress (p : progress) : progress_file := Some p.

Definition default_state : TopicState :=
  {| p_known := p_init; attempts := 0; correct := 0; difficulty := 1 |}.

(** [get_topic_state(progress, topic)]: the state and the progress object
    after the call (the object is mutated when the topic is new). *)
Definition get_topic_state (p : progress) (topic : string)
  : TopicState * progress :=
  match dict_get (default [] p) topic with
  | Some st => (st, p)
  | None => (default_state, Some (dict_set (default [] p) topic default_state))
  end.

(** The probability of the observation, first statement of each branch of
    [update_mastery]. *)
Definition p_obs (p_known : float) (is_correct : bool) : float :=
  if is_correct
  then p_known * (1 - p_slip) + (1 - p_known) * p_guess
  else p_known * p_slip + (1 - p_known) * (1 - p_guess).

(** The posterior, second statement of each branch, with its fallback
    when [p_obs > 0] fails. *)
Definition p_known_given_obs (p_known : float) (is_correct : bool) : float :=
  let po := p_obs p_known is_correct in
  if is_correct
  then (if 0 <? po then (p_known * (1 - p_slip)) / po else p_known)
  else (if 0 <? po then (p_known * p_slip) / po else p_known).

(** [update_mastery(p_known, is_correct)] *)
Definition update_mastery (p_known : float) (is_correct : bool) : float :=
  let g := p_known_given_obs p_known is_correct in
  let p_known_new := g + (1 - g) * p_learn in
  py_max 0.01 (py_min 0.99 p_known_new).

Section Views.
Context `{PyRuntime}.

(** The dictionary [update_topic] returns. *)
Record UpdateResult := {
  ur_topic : string;
  ur_old_mastery : float;
  ur_new_mastery : float;
  ur_change : float;
  ur_mastered : bool;
  ur_attempts : Z;
  ur_success_rate : float;
  ur_difficulty : Z
}.

(** [update_topic(topic, is_correct)].  The file is written before the
    returned dictionary is built, so a failing division there leaves the
    update stored. *)
Definition update_topic (file : progress_file) (topic : string)
    (is_correct : bool) : outcome UpdateResult * progress_file :=
  let '(state, p) := get_topic_state (load_progress file) topic in
  let old_mastery := p_known state in
  let new_mastery := update_mastery old_mastery is_correct in
  let attempts' := (attempts state + 1)%Z in
  let correct' := if is_correct then (correct state + 1)%Z else correct state in
  let difficulty' :=
    if (3 <=? attempts')%Z then
      match int_truediv correct' attempts' with
      | Some success_rate =>
          if (0.8 <? success_rate) && (difficulty state <? 5)%Z
          then (difficulty state + 1)%Z
          else if (success_rate <? 0.5) && (1 <? difficulty state)%Z
          then (difficulty state - 1)%Z
          else difficulty state
      | None => difficulty state
      end
    else difficulty state in
  let state' := {| p_known := new_mastery; attempts := attempts';
                   correct := correct'; difficulty := difficulty' |} in
  let file' := save_progress (Some (dict_set (default [] p) topic state')) in
  match int_truediv correct' attempts' with
  | None => (Raise ZeroDivisionError, file')
  | Some rate =>
      (Ok {| ur_topic := topic;
             ur_old_mastery := py_round old_mastery 3;
             ur_new_mastery := py_round new_mastery 3;
             ur_change := py_round (new_mastery - old_mastery) 3;
             ur_mastered := MASTERY_THRESHOLD <=? new_mastery;
             ur_attempts := attempts';
             ur_success_rate := py_round rate 2;
             ur_difficulty := difficulty' |}, file')
  end.

(** The dictionary [get_topic_mastery] returns. *)
Record MasteryView := {
  mv_topic : string;
  mv_p_known : float;
  mv_mastered : bool;
  mv_attempts : Z;
  mv_correct : Z;
  mv_success_rate : float;
  mv_difficulty : Z
}.

(** [get_topic_mastery(topic)]: loads, gets or initialises the state,
    and saves ("Save if newly initialized"). *)
Definition get_topic_mastery (file : progress_file) (topic : string)
  : MasteryView * progress_file :=
  let '(state, p) := get_topic_state (load_progress file) topic in
  let file' := save_progress p in
  ({| mv_topic := topic;
      mv_p_known := py_round (p_known state) 3;
      mv_mastered := MASTERY_THRESHOLD <=? p_known state;
      mv_attempts := attempts state;
      mv_correct := correct state;
      mv_success_rate :=
        if (0 <? attempts state)%Z
        then py_round (float_of_int (correct state) / float_of_int (attempts state)) 2
        else 0;
      mv_difficulty := difficulty state |}, file').

Inductive status := mastered | in_progress | not_started.

Definition status_of (state : TopicState) : status :=
  if MASTERY_THRESHOLD <=? p_known state then mastered
  else if (0 <? attempts state)%Z then in_progress
  else not_started.

(** The dictionary [get_all_status] returns. *)
Record StatusView := {
  sv_total_topics : Z;
  sv_mastered : Z;
  sv_in_progress : Z;
  sv_not_started : Z;
  sv_topics : dict (float * status * Z)
}.

Definition status_eqb (a b : status) : bool :=
  match a, b with
  | mastered, mastered | in_progress, in_progress | not_started, not_started => true
  | _, _ => false
  end.

(** The three counters the loop of [get_all_status] increments. *)
Definition count_status (st : status) (topics : dict TopicState) : Z :=
  Z.of_nat (length (List.filter (fun kv => status_eqb (status_of (snd kv)) st) topics)).

(** [get_all_status()]: loads and never saves. *)
Definition get_all_status (file : progress_file) : StatusView * progress_file :=
  let topics := default [] (load_progress file) in
  ({| sv_total_topics := Z.of_nat (length topics);
      sv_mastered := count_status mastered topics;
      sv_in_progress := count_status in_progress topics;
      sv_not_started := count_status not_started topics;
      sv_topics :=
        map (fun kv => (kv.1, (py_round (p_known kv.2) 3, status_of kv.2, attempts kv.2)))
            topics |}, file).

(** The sort key of a candidate, [(x[1], x[2])], and Python's [<] on two
    such tuples: the first components decide unless they are [==]. *)
Definition candidate := (string * float * Z)%type.

Definition key_lt (a b : candidate) : bool :=
  if a.1.2 =? b.1.2 then (a.2 <? b.2)%Z else a.1.2 <? b.1.2.

(** [list.sort(key=...)] is stable: an element stays in front of the
    later elements it is not greater than. *)
Fixpoint insert_sorted (x : candidate) (l : list candidate) : list candidate :=
  match l with
  | [] => [x]
  | y :: l' => if key_lt y x then y :: insert_sorted x l' else x :: y :: l'
  end.

Definition sort_candidates (l : list candidate) : list candidate :=
  foldr insert_sorted [] l.

(** The candidates loop of [suggest_topic]. *)
Definition candidates_of (topics : dict TopicState) : list candidate :=
  omap (fun kv => if p_known kv.2 <? MASTERY_THRESHOLD
                  then Some (kv.1, p_known kv.2, attempts kv.2)
                  else None) topics.

Inductive reason :=
| AllMastered
| LowMastery
| FewAttempts
| ModerateMastery.

(** The dictionary [suggest_topic] returns: [suggestion] is [None] when
    every tracked topic is mastered. *)
Record Suggestion := {
  sg_suggestion : option string;
  sg_mastery : option float;
  sg_attempts : option Z;
  sg_reason : reason
}.

(** [suggest_topic()] *)
Definition suggest_topic (file : progress_file) : Suggestion * progress_file :=
  let topics := default [] (load_progress file) in
  match sort_candidates (candidates_of topics) with
  | [] => ({| sg_suggestion := None; sg_mastery := None; sg_attempts := None;
              sg_reason := AllMastered |}, file)
  | (topic, mastery, attempts) :: _ =>
      ({| sg_suggestion := Some topic;
          sg_mastery := Some (py_round mastery 3);
          sg_attempts := Some attempts;
          sg_reason := if mastery <? 0.5 then LowMastery
                       else if (attempts <? 3)%Z then FewAttempts
                       else ModerateMastery |}, file)
  end.

End Views.

(** The sort key of a candidate as integers compared lexicographically,
    for a candidate whose mastery is a number. *)
Definition key_rank (c : candidate) : Z * Z * Z * Z := (frank c.1.2, c.2).

Definition lt4 (a b : Z * Z * Z * Z) : Prop :=
  (a.1.1.1 < b.1.1.1 \/ (a.1.1.1 = b.1.1.1 /\
    (a.1.1.2 < b.1.1.2 \/ (a.1.1.2 = b.1.1.2 /\
      (a.1.2 < b.1.2 \/ (a.1.2 = b.1.2 /\ a.2 < b.2))))))%Z.

Definition numeric (c : candidate) : Prop := is_number c.1.2.

(** The state [update_topic] leaves in the dictionary, from the state it
    found there: the assignments of its body, in order. *)
Definition updated_state (state : TopicState) (is_correct : bool) : TopicState :=
  let attempts' := (attempts state + 1)%Z in
  let correct' := if is_correct then (correct state + 1)%Z else correct state in
  {| p_known := update_mastery (p_known state) is_correct;
     attempts := attempts';
     correct := correct';
     difficulty :=
       if (3 <=? attempts')%Z then
         match int_truediv correct' attempts' with
         | Some success_rate =>
             if (0.8 <? success_rate) && (difficulty state <? 5)%Z
             then (difficulty state + 1)%Z
             else if (success_rate <? 0.5) && (1 <? difficulty state)%Z
             then (difficulty state - 1)%Z
             else difficulty state
         | None => difficulty state
         end
       else difficulty state |}.

(** *** Sequences of calls *)

(** The state the file holds for a topic. *)
Definition stored_state (file : progress_file) (topic : string) : option TopicState :=
  dict_get (default [] (load_progress file)) topic.

(** The topics of the file, in order, and their states. *)
Definition stored_topics (file : progress_file) : list string :=
  (default [] (load_progress file)).*1.

Definition stored_states (file : progress_file) : list TopicState :=
  (default [] (load_progress file)).*2.

(** The state an operation works on: the stored one, or the default. *)
Definition state_of (file : progress_file) (topic : string) : TopicState :=
  default default_state (stored_state file topic).

(** A state as the four fields are meant: a probability the clamp can
    produce, no more correct answers than attempts, a difficulty from 1
    to 5. *)
Record well_formed (state : TopicState) : Prop := {
  wf_p_known : fle 0.01 (p_known state) /\ fle (p_known state) 0.99;
  wf_counts : (0 <= correct state <= attempts state)%Z;
  wf_difficulty : (1 <= difficulty state <= 5)%Z
}.

Definition all_well_formed (file : progress_file) : Prop :=
  forall topic state, stored_state file topic = Some state -> well_formed state.

Inductive tracker_call :=
| Update (topic : string) (is_correct : bool)
| Get (topic : string)
| Status
| Suggest.

Section Calls.
Context `{PyRuntime}.

Definition tracker_step (file : progress_file) (c : tracker_call) : progress_file :=
  match c with
  | Update topic is_correct => (update_topic file topic is_correct).2
  | Get topic => (get_topic_mastery file topic).2
  | Status => (get_all_status file).2
  | Suggest => (suggest_topic file).2
  end.

Definition tracker_run (file : progress_file) (calls : list tracker_call)
  : progress_file :=
  foldl tracker_step file calls.

End Calls.

(** A progress file with a weak topic and a mastered one. *)
Definition example_progress : progress_file :=
  Some (Some [("paging"%string, mkTopicState 0.2 5 1 1);
              ("tlb"%string, mkTopicState 0.96 4 4 2)]).

(** The updates of a topic among some calls, and the correct ones. *)
Definition updates_of (topic : string) (calls : list tracker_call) : list bool :=
  omap (fun c => match c with
                 | Update t b => if String.eqb t topic then Some b else None
                 | _ => None
                 end) calls.

End knowledge_tracker.

(* ===================================================================== *)
(** ** spaced_scheduler.py *)
(* ===================================================================== *)

Module spaced_scheduler.

Local Open Scope float_scope.

(** SM-2 constants *)
Definition DEFAULT_EASE_FACTOR : float := 2.5.
Definition MIN_EASE_FACTOR : float := 1.3.
Definition EASE_BONUS : float := 0.1.
Definition EASE_PENALTY : float := 0.2.
Definition NOISE_FACTOR : float := 0.05.

(** A [datetime], in microseconds since 0001-01-01T00:00:00
    ([datetime.min]); [isoformat] and [fromisoformat] keep it to the
    microsecond, so the stored string is the value itself. *)
Definition datetime := Z.

(** [datetime.max], 9999-12-31T23:59:59.999999. *)
Definition datetime_max : datetime := 315537897599999999%Z.

(** [d + timedelta(microseconds=us)]: the date, or [OverflowError] when it
    falls outside the years 1 to 9999. *)
Definition datetime_add (d : datetime) (us : Z) : outcome datetime :=
  if (0 <=? d + us)%Z && (d + us <=? datetime_max)%Z then Ok (d + us)%Z
  else Raise OverflowError.

(** [timedelta(days=n)] for an [int]: the microseconds, or [OverflowError]
    beyond 999999999 days. *)
Definition timedelta_int_days (n : Z) : outcome Z :=
  if (Z.abs n <=? 999999999)%Z then Ok (n * 86400000000)%Z
  else Raise OverflowError.

(** An entry of [quality_history]. *)
Record QualityRecord := {
  quality : Z;
  timestamp : datetime
}.

(** The per-topic dictionary of [self.schedule]. *)
Record TopicData := {
  ease_factor : float;
  interval : float;
  repetitions : Z;
  next_review : datetime;
  last_review : option datetime;
  total_reviews : Z;
  quality_history : list QualityRecord
}.

(** A scheduler object: the dictionary in memory, and what
    [schedule.json] holds ([None] when the file does not exist). *)
Record SpacedScheduler := {
  schedule : gmap string TopicData;
  schedule_file : option (gmap string TopicData)
}.

(** [_load_schedule] and [__init__] *)
Definition _load_schedule (file : option (gmap string TopicData))
  : gmap string TopicData :=
  match file with
  | Some d => d
  | None => ∅
  end.

Definition init (file : option (gmap string TopicData)) : SpacedScheduler :=
  {| schedule := _load_schedule file; schedule_file := file |}.

(** [_save_schedule] *)
Definition _save_schedule (self : SpacedScheduler) : SpacedScheduler :=
  {| schedule := schedule self; schedule_file := Some (schedule self) |}.

Definition default_topic (now : datetime) : TopicData :=
  {| ease_factor := DEFAULT_EASE_FACTOR;
     interval := 0;
     repetitions := 0;
     next_review := now;
     last_review := None;
     total_reviews := 0;
     quality_history := [] |}.

(** [_get_topic_data(topic_id)]; [now] is the clock it reads when the
    topic is new. *)
Definition _get_topic_data (self : SpacedScheduler) (topic_id : string)
    (now : datetime) : TopicData * SpacedScheduler :=
  match schedule self !! topic_id with
  | Some topic => (topic, self)
  | None =>
      (default_topic now,
       {| schedule := <[topic_id := default_topic now]> (schedule self);
          schedule_file := schedule_file self |})
  end.

(** [_add_noise(interval)], with [noise] the value
    [random.uniform(-NOISE_FACTOR, NOISE_FACTOR)] returned. *)
Definition _add_noise (interval noise : float) : float :=
  interval * (1 + noise).

(** The amount a successful recall adds to the ease factor. *)
Definition ease_bonus (quality : Z) : float :=
  0.1 - float_of_int (5 - quality) * (0.08 + float_of_int (5 - quality) * 0.02).

(** Step 1 of the algorithm: the ease factor before the floor is applied,
    and after. *)
Definition raw_ease_factor (ease : float) (quality : Z) : float :=
  if (3 <=? quality)%Z
  then ease + ease_bonus quality
  else ease - EASE_PENALTY.

Definition new_ease_factor (ease : float) (quality : Z) : float :=
  py_max MIN_EASE_FACTOR (raw_ease_factor ease quality).

(** Step 2: the repetitions count after the review and [next_interval]
    before the noise; [ease] is the ease factor step 1 left. *)
Definition new_interval (topic : TopicData) (ease : float) (quality : Z)
  : Z * float :=
  if (quality <? 3)%Z then (0%Z, 1)
  else
    let next_interval :=
      if (repetitions topic =? 0)%Z then 1
      else if (repetitions topic =? 1)%Z then 6
      else interval topic * ease in
    ((repetitions topic + 1)%Z, next_interval).

(** The history after the append and the cut to the last 20. *)
Definition new_history (history : list QualityRecord) (quality : Z)
    (now : datetime) : list QualityRecord :=
  let history1 := history ++ [{| quality := quality; timestamp := now |}] in
  if (20 <? length history1)%nat then last_n 20 history1 else history1.

Section Methods.
Context `{PyRuntime}.

(** The dictionary [review] returns. *)
Record ReviewResult := {
  rr_topic_id : string;
  rr_quality : Z;
  rr_ease_factor : float;
  rr_interval_days : float;
  rr_next_review : string;
  rr_repetitions : Z;
  rr_total_reviews : Z
}.

(** [now + timedelta(days=next_interval)], line 158: the date, or the
    exception [timedelta] or the addition raises. *)
Definition next_review_date (now : datetime) (next_interval : float)
  : outcome datetime :=
  match timedelta_days next_interval with
  | Raise e => Raise e
  | Ok us => datetime_add now us
  end.

(** The topic dictionary once the body of [review] has run on it, to its
    end or to the exception of line 158: every key is written before that
    line except ["next_review"], which the exception leaves as it was. *)
Definition reviewed (topic : TopicData) (quality : Z) (now : datetime)
    (noise : float) : TopicData :=
  let ease := new_ease_factor (ease_factor topic) quality in
  let '(reps, nominal) := new_interval topic ease quality in
  let next_interval := _add_noise nominal noise in
  {| ease_factor := ease;
     interval := next_interval;
     repetitions := reps;
     next_review :=
       match next_review_date now next_interval with
       | Ok date => date
       | Raise _ => next_review topic
       end;
     last_review := Some now;
     total_reviews := (total_reviews topic + 1)%Z;
     quality_history := new_history (quality_history topic) quality now |}.

(** [review(topic_id, quality)].  [created] is the clock
    [_get_topic_data] reads, [now] the one [review] reads, [noise] the
    random draw.  An exception of line 158 leaves the dictionary in memory
    changed and the file as it was. *)
Definition review (self : SpacedScheduler) (topic_id : string) (quality : Z)
    (created now : datetime) (noise : float)
  : outcome ReviewResult * SpacedScheduler :=
  if negb ((0 <=? quality)%Z && (quality <=? 5)%Z) then (Raise ValueError, self)
  else
    let '(topic, self1) := _get_topic_data self topic_id created in
    let topic' := reviewed topic quality now noise in
    let self2 := {| schedule := <[topic_id := topic']> (schedule self1);
                    schedule_file := schedule_file self1 |} in
    match next_review_date now (interval topic') with
    | Raise e => (Raise e, self2)
    | Ok _ =>
        (Ok {| rr_topic_id := topic_id;
               rr_quality := quality;
               rr_ease_factor := py_round (ease_factor topic') 2;
               rr_interval_days := py_round (interval topic') 1;
               rr_next_review := strftime (next_review topic');
               rr_repetitions := repetitions topic';
               rr_total_reviews := total_reviews topic' |},
         _save_schedule self2)
    end.

(** The dictionary [get_stats] returns. *)
Record Stats := {
  st_topic_id : string;
  st_ease_factor : float;
  st_current_interval_days : float;
  st_repetitions : Z;
  st_total_reviews : Z;
  st_average_quality : float;
  st_next_review : string;
  st_days_until_review : float;
  st_overdue : bool;
  st_last_review : option datetime;
  st_recent_quality : list Z
}.

Definition sum_quality (history : list QualityRecord) : Z :=
  foldr (fun r acc => (quality r + acc)%Z) 0%Z history.

(** [get_stats(topic_id)]; [now] is the clock it reads. *)
Definition get_stats (self : SpacedScheduler) (topic_id : string)
    (now : datetime) : option Stats * SpacedScheduler :=
  match schedule self !! topic_id with
  | None => (None, self)
  | Some topic =>
      let avg_quality :=
        match quality_history topic with
        | [] => 0
        | _ => float_of_int (sum_quality (quality_history topic))
               / float_of_int (Z.of_nat (length (quality_history topic)))
        end in
      let days_until :=
        float_of_int (next_review topic - now) / float_of_int 1000000 / 86400 in
      (Some {| st_topic_id := topic_id;
               st_ease_factor := py_round (ease_factor topic) 2;
               st_current_interval_days := py_round (interval topic) 1;
               st_repetitions := repetitions topic;
               st_total_reviews := total_reviews topic;
               st_average_quality := py_round avg_quality 2;
               st_next_review := strftime (next_review topic);
               st_days_until_review := py_round days_until 1;
               st_overdue := days_until <? 0;
               st_last_review := last_review topic;
               st_recent_quality := map quality (last_n 5 (quality_history topic)) |},
       self)
  end.

(** [reset_topic(topic_id)] *)
Definition reset_topic (self : SpacedScheduler) (topic_id : string)
  : SpacedScheduler :=
  match schedule self !! topic_id with
  | Some _ =>
      _save_schedule {| schedule := delete topic_id (schedule self);
                        schedule_file := schedule_file self |}
  | None => self
  end.

(** A call on a scheduler object, with the clock readings and the random
    draw it consumes, and the object after a sequence of calls. *)
Inductive call :=
| Review (topic_id : string) (quality : Z) (created now : datetime) (noise : float)
| GetStats (topic_id : string) (now : datetime)
| ResetTopic (topic_id : string).

Definition step (self : SpacedScheduler) (c : call) : SpacedScheduler :=
  match c with
  | Review topic_id quality created now noise =>
      (review self topic_id quality created now noise).2
  | GetStats topic_id now => (get_stats self topic_id now).2
  | ResetTopic topic_id => reset_topic self topic_id
  end.

Definition run (self : SpacedScheduler) (calls : list call) : SpacedScheduler :=
  foldl step self calls.

(** What a caller observes of a topic's review count: the field of its
    record, as [review] and [get_stats] report it. *)
Definition observed_total_reviews (self : SpacedScheduler) (topic_id : string)
  : option Z :=
  total_reviews <$> (schedule self !! topic_id).

(** The precondition of [review]. *)
Definition valid_quality (quality : Z) : Prop := (0 <= quality <= 5)%Z.

(** The history and the review count of a topic, empty and zero while it
    has no record. *)
Definition history_of (self : SpacedScheduler) (topic_id : string)
  : list QualityRecord :=
  match schedule self !! topic_id with
  | Some topic => quality_history topic
  | None => []
  end.

Definition total_of (self : SpacedScheduler) (topic_id : string) : Z :=
  default 0%Z (observed_total_reviews self topic_id).

Definition history_capped (self : SpacedScheduler) : Prop :=
  forall topic_id topic,
    schedule self !! topic_id = Some topic ->
    (length (quality_history topic) <= 20)%nat.

(** The record a call adds to the history of [topic_id]: a review of that
    topic that passes validation adds one, any other call none. *)
Definition recorded (topic_id : string) (c : call) : option QualityRecord :=
  match c with
  | Review id q _ now _ =>
      if decide (id = topic_id /\ valid_quality q)
      then Some {| quality := q; timestamp := now |}
      else None
  | _ => None
  end.

(** Whether a call is a review that ends at line 158: its quality passed
    validation and [now + timedelta(days=next_interval)] raised, so that
    [_save_schedule] was not reached. *)
Definition stops_at_date (self : SpacedScheduler) (c : call) : bool :=
  match c with
  | Review topic_id quality created now noise =>
      (0 <=? quality)%Z && (quality <=? 5)%Z
      && match (review self topic_id quality created now noise).1 with
         | Raise _ => true
         | Ok _ => false
         end
  | _ => false
  end.

(** No call of the sequence, served in turn from [self], is such a
    review. *)
Fixpoint dates_fit (self : SpacedScheduler) (calls : list call) : bool :=
  match calls with
  | [] => true
  | c :: calls' => negb (stops_at_date self c) && dates_fit (step self c) calls'
  end.

End Methods.

Arguments review {H} self topic_id%_string quality%_Z created%_Z now%_Z noise%_float.
Arguments get_stats {H} self topic_id%_string now%_Z.
Arguments reset_topic self topic_id%_string.
Arguments Review topic_id%_string quality%_Z created%_Z now%_Z noise%_float.
Arguments GetStats topic_id%_string now%_Z.
Arguments ResetTopic topic_id%_string.

(** A scheduler whose data directory has no [schedule.json]. *)
Definition fresh : SpacedScheduler := init None.

(** 21 reviews of one topic, at times 1 to 21, with qualities 1, 2, 3, 4,
    5, 0, 1, ... *)
Definition reviews_21 : list call :=
  map (fun i => Review "paging" (i mod 6) i i 0) (seqZ 1 21).

(** The first instant of 2026, and the scheduler after [n] reviews of one
    topic at that instant, each with quality 5 and the same noise draw; no
    noise for [perfect]. *)
Definition year_2026 : datetime := 63902822400000000%Z.

Definition streak (noise : float) (n : nat) : SpacedScheduler :=
  run (H := example_runtime) fresh
    (replicate n (Review "paging" 5 year_2026 year_2026 noise)).

Definition perfect (n : nat) : SpacedScheduler := streak 0 n.

(** *** The queries *)

(** [self.schedule.items()]: the items of the dictionary in its insertion
    order.  The map does not record that order, so it is an input: any
    listing of the items, each once. *)
Class DictOrder := {
  schedule_items : gmap string TopicData -> list (string * TopicData);
  schedule_items_perm : forall m, schedule_items m ≡ₚ map_to_list m
}.

Definition canonical_order : DictOrder :=
  {| schedule_items := map_to_list;
     schedule_items_perm := fun m => Permutation_refl (map_to_list m) |}.

(** [l.sort(key=lambda x: x[1])] on pairs of a topic and a date: a stable
    sort, an element staying in front of the later ones it is not after. *)
Fixpoint insert_by_date (x : string * datetime) (l : list (string * datetime))
  : list (string * datetime) :=
  match l with
  | [] => [x]
  | y :: l' => if (y.2 <? x.2)%Z then y :: insert_by_date x l' else x :: y :: l'
  end.

Definition sort_by_date (l : list (string * datetime)) : list (string * datetime) :=
  foldr insert_by_date [] l.

(** The order the sort leaves its result in. *)
Definition by_date (a b : string * datetime) : Prop := (a.2 <= b.2)%Z.

(** [l[:k]]: the first [k] elements, or all but the last [-k] when [k] is
    negative. *)
Definition slice_to {A} (k : Z) (l : list A) : list A :=
  if (k <? 0)%Z then take (length l - Z.to_nat (- k))%nat l else take (Z.to_nat k) l.

(** [l[:limit] if limit else l], where [limit] is [None] or an integer. *)
Definition limited {A} (limit : option Z) (l : list A) : list A :=
  match limit with
  | None => l
  | Some k => if (k =? 0)%Z then l else slice_to k l
  end.

(** One microsecond count per day: [timedelta(days=n)] for an integer
    [n], inside the range of [timedelta]. *)
Definition days_us (n : Z) : Z := (n * 86400000000)%Z.

(** The tests of the two selection loops. *)
Definition is_due (now : datetime) (topic : TopicData) : bool :=
  (next_review topic <=? now)%Z.

Definition is_upcoming (now cutoff : datetime) (topic : TopicData) : bool :=
  (now <? next_review topic)%Z && (next_review topic <=? cutoff)%Z.

Inductive priority := Overdue | Upcoming.

Section Queries.
Context `{PyRuntime} `{order : DictOrder}.

(** [get_due_topics(limit)]; [now] is the clock it reads. *)
Definition get_due_topics (self : SpacedScheduler) (limit : option Z)
    (now : datetime) : list (string * datetime) :=
  let due :=
    omap (fun kv => if (next_review kv.2 <=? now)%Z
                    then Some (kv.1, next_review kv.2) else None)
         (schedule_items (schedule self)) in
  limited limit (sort_by_date due).

(** [get_next_topic()] *)
Definition get_next_topic (self : SpacedScheduler) (now : datetime) : option string :=
  match get_due_topics self None now with
  | [] => None
  | (topic_id, _) :: _ => Some topic_id
  end.

(** [get_upcoming_topics] from its third line on, lines 226 to 236:
    the selection, the sort and the limit, [cutoff] being the date line 225
    computed. *)
Definition upcoming_until (self : SpacedScheduler) (cutoff : datetime)
    (limit : option Z) (now : datetime) : list (string * datetime) :=
  let upcoming :=
    omap (fun kv => if (now <? next_review kv.2)%Z && (next_review kv.2 <=? cutoff)%Z
                    then Some (kv.1, next_review kv.2) else None)
         (schedule_items (schedule self)) in
  limited limit (sort_by_date upcoming).

(** [get_upcoming_topics(days, limit)]; the defaults are [days=7] and
    [limit=10].  Line 225, [now + timedelta(days=days)], raises
    [OverflowError] when [days] is outside the range of [timedelta] or the
    sum is outside the years 1 to 9999. *)
Definition get_upcoming_topics (self : SpacedScheduler) (days : Z)
    (limit : option Z) (now : datetime) : outcome (list (string * datetime)) :=
  match timedelta_int_days days with
  | Raise e => Raise e
  | Ok us =>
      match datetime_add now us with
      | Raise e => Raise e
      | Ok cutoff => Ok (upcoming_until self cutoff limit now)
      end
  end.

(** An entry of the review queue: the statistics of a topic with the
    ["priority"] key set. *)
Record QueueEntry := {
  qe_stats : Stats;
  qe_priority : priority
}.

(** One loop of [get_review_queue]: [get_stats] on each topic, in order,
    reading the clock once per topic ([clock k] is the [k]-th reading of the
    call).  [None] stands for the [TypeError] that setting a key on a
    missing [stats] would raise. *)
Fixpoint tag_stats (self : SpacedScheduler) (p : priority) (clock : nat -> datetime)
    (k : nat) (l : list (string * datetime)) : option (list QueueEntry) :=
  match l with
  | [] => Some []
  | (topic_id, _) :: l' =>
      match (get_stats self topic_id (clock k)).1 with
      | None => None
      | Some stats =>
          cons {| qe_stats := stats; qe_priority := p |}
            <$> tag_stats self p clock (S k) l'
      end
  end.

(** [get_review_queue(limit)].  The clock is taken to read a time more
    than seven days before the end of the year 9999, so that the cutoff
    [get_upcoming_topics(days=7, ...)] computes is a date, seven days after
    the reading. *)
Definition get_review_queue (self : SpacedScheduler) (limit : Z)
    (clock : nat -> datetime) : option (list QueueEntry) :=
  let due := get_due_topics self None (clock 0%nat) in
  match tag_stats self Overdue clock 1 due with
  | None => None
  | Some queue =>
      if (Z.of_nat (length queue) <? limit)%Z then
        let upcoming :=
          upcoming_until self (clock (S (length queue)) + days_us 7)%Z
            (Some (limit - Z.of_nat (length queue))%Z) (clock (S (length queue))) in
        match tag_stats self Upcoming clock (S (S (length queue))) upcoming with
        | None => None
        | Some more => Some (slice_to limit (queue ++ more))
        end
      else Some (slice_to limit queue)
  end.

(** The topics the queue is built from: those of the due listing, and
    those of the upcoming listing when it is made. *)
Definition queue_topics (self : SpacedScheduler) (limit : Z)
    (clock : nat -> datetime) : list string * list string :=
  let due := (get_due_topics self None (clock 0%nat)).*1 in
  let upcoming :=
    if (Z.of_nat (length due) <? limit)%Z
    then (upcoming_until self (clock (S (length due)) + days_us 7)%Z
            (Some (limit - Z.of_nat (length due))%Z) (clock (S (length due)))).*1
    else [] in
  (due, upcoming).

End Queries.

Arguments get_due_topics {_} self limit%_Z now%_Z.
Arguments get_next_topic {_} self now%_Z.
Arguments upcoming_until {_} self cutoff%_Z limit%_Z now%_Z.
Arguments get_upcoming_topics {_} self days%_Z limit%_Z now%_Z.
Arguments get_review_queue {_ _} self limit%_Z clock.
Arguments queue_topics {_} self limit%_Z clock.

(** The successful reviews a list of reviews starts with, and those it
    ends with. *)
Fixpoint leading_successes (l : list QualityRecord) : nat :=
  match l with
  | [] => 0%nat
  | r :: l' => if (3 <=? quality r)%Z then S (leading_successes l') else 0%nat
  end.

Definition trailing_successes (l : list QualityRecord) : nat :=
  leading_successes (reverse l).

(** The [repetitions] of a topic, zero while it has no record. *)
Definition repetitions_of (self : SpacedScheduler) (topic_id : string) : Z :=
  default 0%Z (repetitions <$> schedule self !! topic_id).

(** Three topics reviewed once each, at times 30, 10 and 20. *)
Definition three_topics : SpacedScheduler :=
  run (H := example_runtime) fresh
    [Review "paging" 4 0 30 0; Review "tlb" 2 0 10 0; Review "mutex" 5 0 20 0].

(** *** Records a scheduler that started without a file can hold *)

(** What holds of a record once a review stored it. *)
Record reviewed_record (topic : TopicData) : Prop := {
  rec_ease : fle MIN_EASE_FACTOR (ease_factor topic);
  rec_total : (1 <= total_reviews topic)%Z;
  rec_repetitions : (0 <= repetitions topic <= total_reviews topic)%Z;
  rec_history_length :
    Z.of_nat (length (quality_history topic)) = Z.min 20 (total_reviews topic);
  rec_history_quality :
    Forall (fun r => valid_quality (quality r)) (quality_history topic);
  rec_last_review :
    last_review topic = timestamp <$> last (quality_history topic)
}.

(** What [review] needs of the record it starts from: the default record
    and every reviewed record have it. *)
Definition countable_record (topic : TopicData) : Prop :=
  (0 <= repetitions topic <= total_reviews topic)%Z
  /\ Z.of_nat (length (quality_history topic)) = Z.min 20 (total_reviews topic)%Z
  /\ Forall (fun r => valid_quality (quality r)) (quality_history topic).

Definition all_reviewed (self : SpacedScheduler) : Prop :=
  forall topic_id topic,
    schedule self !! topic_id = Some topic -> reviewed_record topic.

(** The file, read back, is the dictionary in memory. *)
Definition in_sync (self : SpacedScheduler) : Prop :=
  _load_schedule (schedule_file self) = schedule self.

End spaced_scheduler.

(* ===================================================================== *)
(** ** cheat_sheet_builder.py *)
(* ===================================================================== *)

Module cheat_sheet_builder.

Import knowledge_tracker spaced_scheduler.
Local Open Scope float_scope.

(** An item of the cheat sheet, as [add_topic] builds it. *)
Record Item := {
  topic_id : string;
  display_name : string;
  added_date : datetime;
  p_known_when_added : float;
  must_include : bool;
  user_notes : string
}.

(** The content of [cheat_sheet.json]; the file holds one, or does not
    exist. *)
Record CheatSheet := {
  items : list Item;
  last_generated : option datetime;
  exam_date : option datetime
}.

Definition cheat_sheet_file := option CheatSheet.

(** [load_cheat_sheet()] and [save_cheat_sheet(data)] *)
Definition load_cheat_sheet (file : cheat_sheet_file) : CheatSheet :=
  match file with
  | Some data => data
  | None => {| items := []; last_generated := None; exam_date := None |}
  end.

Definition save_cheat_sheet (data : CheatSheet) : cheat_sheet_file := Some data.

(** [load_bkt_state(topic_id)], reading the progress file of the
    tracker. *)
Definition load_bkt_state (progress : progress_file) (topic : string)
  : option TopicState :=
  match progress with
  | None => None
  | Some p => dict_get (default [] p) topic
  end.

(** [calculate_priority(topic_id, item)] *)
Definition calculate_priority (progress : progress_file) (topic : string)
    (item : Item) : float :=
  match load_bkt_state progress topic with
  | None => 50.0
  | Some bkt =>
      let base_score := (1 - p_known bkt) * 100 in
      let struggle_bonus :=
        if (3 <=? attempts bkt)%Z && (p_known bkt <? 0.4) then 50 else 0 in
      let manual_boost := if must_include item then 50 else 0 in
      base_score + struggle_bonus + manual_boost
  end.

(** The reasons [check_suggest] gives. *)
Inductive suggest_reason :=
| NoBktData
| AlreadyInCheatSheet
| MasteryGood
| NeedMoreAttempts
| LowMasteryAfterAttempts.

(** [topic_id in topic_ids] *)
Definition in_cheat_sheet (sheet : CheatSheet) (topic : string) : bool :=
  existsb (String.eqb topic) (map topic_id (items sheet)).

(** [check_suggest(topic_id)] *)
Definition check_suggest (progress : progress_file) (file : cheat_sheet_file)
    (topic : string) : bool * suggest_reason :=
  match load_bkt_state progress topic with
  | None => (false, NoBktData)
  | Some bkt =>
      if in_cheat_sheet (load_cheat_sheet file) topic then (false, AlreadyInCheatSheet)
      else if 0.5 <=? p_known bkt then (false, MasteryGood)
      else if (attempts bkt <? 3)%Z then (false, NeedMoreAttempts)
      else (true, LowMasteryAfterAttempts)
  end.

Section Editing.

(** [topic_id.replace("_", " ").title()] *)
Variable titled : string -> string.

(** [add_topic(topic_id, user_note)]; [now] is the clock it reads. *)
Definition add_topic (progress : progress_file) (file : cheat_sheet_file)
    (topic : string) (user_note : string) (now : datetime) : cheat_sheet_file :=
  let cheat_sheet := load_cheat_sheet file in
  if in_cheat_sheet cheat_sheet topic then file
  else
    let p_known :=
      match load_bkt_state progress topic with
      | Some bkt => p_known bkt
      | None => 0.0
      end in
    let item := {| topic_id := topic;
                   display_name := titled topic;
                   added_date := now;
                   p_known_when_added := p_known;
                   must_include := false;
                   user_notes := user_note |} in
    save_cheat_sheet {| items := items cheat_sheet ++ [item];
                        last_generated := last_generated cheat_sheet;
                        exam_date := exam_date cheat_sheet |}.

End Editing.

(** [remove_topic(topic_id)] *)
Definition remove_topic (file : cheat_sheet_file) (topic : string)
  : cheat_sheet_file :=
  let cheat_sheet := load_cheat_sheet file in
  let kept := List.filter (fun item => negb (String.eqb (topic_id item) topic))
                (items cheat_sheet) in
  if (length kept =? length (items cheat_sheet))%nat then file
  else save_cheat_sheet {| items := kept;
                           last_generated := last_generated cheat_sheet;
                           exam_date := exam_date cheat_sheet |}.

(** The topics of the cheat sheet, in order. *)
Definition sheet_topics (file : cheat_sheet_file) : list string :=
  map topic_id (items (load_cheat_sheet file)).

End cheat_sheet_builder.

(* ===================================================================== *)
(** * Properties *)
(* ===================================================================== *)

(** ** Comparisons of binary64 numbers *)

Module PyNumFacts.

Local Open Scope float_scope.

Lemma ltb_leb (x y : float) : (x <? y) = true -> (x <=? y) = true.
Proof.
  rewrite FloatAxioms.ltb_spec, FloatAxioms.leb_spec. unfold SFltb, SFleb.
  destruct (SFcompare (Prim2SF x) (Prim2SF y)) as [[]|]; congruence.
Qed.

(** A value that went through [py_max lo] is at least [lo], whatever it
    was (a NaN included), provided [lo] itself is a number. *)
Lemma py_max_lower (lo x : float) :
  (lo <=? lo) = true -> fle lo (py_max lo x).
Proof.
  intros Hlo. unfold fle, py_max.
  destruct (lo <? x) eqn:E; [now apply ltb_leb | exact Hlo].
Qed.

Lemma py_max_cases (lo x : float) :
  (flt lo x /\ py_max lo x = x) \/ ((lo <? x) = false /\ py_max lo x = lo).
Proof. unfold flt, py_max. destruct (lo <? x); auto. Qed.

Lemma py_min_upper (hi x : float) :
  (hi <=? hi) = true -> fle (py_min hi x) hi.
Proof.
  intros Hhi. unfold fle, py_min.
  destruct (x <? hi) eqn:E; [now apply ltb_leb | exact Hhi].
Qed.

(** The clamp [max(lo, min(hi, x))] lands in [[lo, hi]]. *)
Lemma clamp_bounds (lo hi x : float) :
  (lo <=? lo) = true -> (hi <=? hi) = true -> (lo <=? hi) = true ->
  fle lo (py_max lo (py_min hi x)) /\ fle (py_max lo (py_min hi x)) hi.
Proof.
  intros Hlo Hhi Hlh. split; [now apply py_max_lower|].
  destruct (py_max_cases lo (py_min hi x)) as [[_ ->]|[_ ->]].
  - now apply py_min_upper.
  - exact Hlh.
Qed.

(** *** The order of the numbers *)

Lemma rank_compare (x y : spec_float) :
  x <> S754_nan -> y <> S754_nan ->
  match SFcompare x y with
  | Some Lt => lt3 (rank x) (rank y)
  | Some Eq => rank x = rank y
  | Some Gt => lt3 (rank y) (rank x)
  | None => False
  end.
Proof.
  intros Hx Hy. unfold lt3.
  destruct x as [sx|sx| |sx mx ex], y as [sy|sy| |sy my ey]; try congruence;
    cbn; try destruct sx; try destruct sy; cbn; try lia; try reflexivity.
  all: destruct (Z.compare_spec ex ey); cbn; try lia.
  all: rewrite ?Pos.compare_cont_spec; cbn.
  all: destruct (Pos.compare_spec mx my); subst; cbn; try lia; try reflexivity.
Qed.

Lemma is_number_spec (x : float) : is_number x -> Prim2SF x <> S754_nan.
Proof.
  unfold is_number, is_nan. rewrite FloatAxioms.eqb_spec. intros E Hn.
  rewrite Hn in E. discriminate.
Qed.

Lemma lt3_irrefl a : ~ lt3 a a.
Proof. unfold lt3. lia. Qed.

Lemma ltb_frank (x y : float) :
  is_number x -> is_number y -> ((x <? y) = true <-> lt3 (frank x) (frank y)).
Proof.
  intros Hx%is_number_spec Hy%is_number_spec.
  rewrite FloatAxioms.ltb_spec. unfold SFltb, frank.
  pose proof (rank_compare _ _ Hx Hy) as R.
  destruct (SFcompare (Prim2SF x) (Prim2SF y)) as [[]|]; try tauto.
  - rewrite R. split; [discriminate|]. intros L. now apply lt3_irrefl in L.
  - split; [discriminate|]. unfold lt3 in *. lia.
Qed.

Lemma eqb_frank (x y : float) :
  is_number x -> is_number y -> ((x =? y) = true <-> frank x = frank y).
Proof.
  intros Hx%is_number_spec Hy%is_number_spec.
  rewrite FloatAxioms.eqb_spec. unfold SFeqb, frank.
  pose proof (rank_compare _ _ Hx Hy) as R.
  destruct (SFcompare (Prim2SF x) (Prim2SF y)) as [[]|]; try tauto.
  - split; [discriminate|]. intros E. rewrite E in R. now apply lt3_irrefl in R.
  - split; [discriminate|]. intros E. rewrite E in R. now apply lt3_irrefl in R.
Qed.

Lemma SFcompare_refl (f : spec_float) :
  f <> S754_nan -> SFcompare f f = Some Eq.
Proof.
  destruct f as [s|s| |s m e]; cbn; intros Hn; try congruence; destruct s;
    rewrite ?Z.compare_refl, ?Pos.compare_cont_refl; reflexivity.
Qed.

(** What is below a number is a number. *)
Lemma ltb_is_number_l (x y : float) : (x <? y) = true -> is_number x.
Proof.
  intros L. unfold is_number, is_nan.
  rewrite FloatAxioms.eqb_spec. unfold SFeqb.
  rewrite SFcompare_refl; [reflexivity|].
  intros Hn. rewrite FloatAxioms.ltb_spec in L. unfold SFltb in L.
  rewrite Hn in L. discriminate.
Qed.

End PyNumFacts.

(** ** Mastery estimation *)

Module knowledge_tracker_spec.

Import knowledge_tracker PyNumFacts.
Local Open Scope float_scope.

(** *** The sort key *)

Lemma frank_eq_components (x y : float) :
  frank x = frank y <->
  ((frank x).1.1 = (frank y).1.1 /\ (frank x).1.2 = (frank y).1.2
   /\ (frank x).2 = (frank y).2)%Z.
Proof.
  destruct (frank x) as [[a b] c], (frank y) as [[a' b'] c']; cbn.
  split; [intros [= -> -> ->]; auto | intros (-> & -> & ->); reflexivity].
Qed.

Lemma key_lt_rank (a b : candidate) :
  numeric a -> numeric b -> (key_lt a b = true <-> lt4 (key_rank a) (key_rank b)).
Proof.
  intros Ha Hb. unfold key_lt, key_rank, lt4. cbn.
  pose proof (eqb_frank _ _ Ha Hb) as E. pose proof (ltb_frank _ _ Ha Hb) as L.
  rewrite frank_eq_components in E. unfold lt3 in L.
  destruct (a.1.2 =? b.1.2).
  - rewrite Z.ltb_lt. lia.
  - rewrite L. assert (~ ((frank a.1.2).1.1 = (frank b.1.2).1.1
                          /\ (frank a.1.2).1.2 = (frank b.1.2).1.2
                          /\ (frank a.1.2).2 = (frank b.1.2).2)%Z)
      by (intros Hc; apply E in Hc; discriminate).
    lia.
Qed.

Lemma key_lt_irrefl (a : candidate) : numeric a -> key_lt a a = false.
Proof.
  intros Ha. destruct (key_lt a a) eqn:K; [|reflexivity].
  apply key_lt_rank in K; auto. unfold lt4 in K. lia.
Qed.

Lemma key_lt_asym (a b : candidate) :
  numeric a -> numeric b -> key_lt a b = true -> key_lt b a = false.
Proof.
  intros Ha Hb K. destruct (key_lt b a) eqn:K'; [|reflexivity].
  apply key_lt_rank in K, K'; auto. unfold lt4 in *. lia.
Qed.

Lemma key_lt_neg_trans (a b c : candidate) :
  numeric a -> numeric b -> numeric c ->
  key_lt c b = false -> key_lt b a = false -> key_lt c a = false.
Proof.
  intros Ha Hb Hc K1 K2. destruct (key_lt c a) eqn:K; [|reflexivity].
  apply key_lt_rank in K; auto.
  assert (~ lt4 (key_rank c) (key_rank b)) as N1
      by (intros L; apply key_lt_rank in L; auto; congruence).
  assert (~ lt4 (key_rank b) (key_rank a)) as N2
      by (intros L; apply key_lt_rank in L; auto; congruence).
  unfold lt4 in *. lia.
Qed.

(** Not being above, on the keys, is the lexicographic order. *)
Lemma key_lt_false_lex_le (h c : candidate) :
  numeric h -> numeric c -> key_lt c h = false -> lex_le (h.1.2, h.2) (c.1.2, c.2).
Proof.
  intros Hh Hc K.
  assert (~ lt4 (key_rank c) (key_rank h)) as N
      by (intros L; apply key_lt_rank in L; auto; congruence).
  unfold lex_le, flt. cbn.
  rewrite (ltb_frank _ _ Hh Hc), (eqb_frank _ _ Hh Hc), frank_eq_components.
  unfold lt4, key_rank, lt3 in *. cbn in N. lia.
Qed.

(** *** The sort *)

Lemma elem_of_insert_sorted (x c : candidate) (l : list candidate) :
  c ∈ insert_sorted x l <-> c = x \/ c ∈ l.
Proof.
  induction l as [|y l IH]; cbn.
  - rewrite list_elem_of_singleton, elem_of_nil. tauto.
  - destruct (key_lt y x); rewrite !elem_of_cons; [rewrite IH|]; tauto.
Qed.

Lemma elem_of_sort_candidates (c : candidate) (l : list candidate) :
  c ∈ sort_candidates l <-> c ∈ l.
Proof.
  induction l as [|x l IH]; cbn; [reflexivity|].
  rewrite elem_of_insert_sorted, elem_of_cons, IH. reflexivity.
Qed.

(** The sorted list starts with an element no other is below. *)
Lemma sort_candidates_head (l : list candidate) :
  Forall numeric l ->
  match sort_candidates l with
  | [] => l = []
  | h :: _ => h ∈ l /\ forall c, c ∈ l -> key_lt c h = false
  end.
Proof.
  induction 1 as [|x l Hx Hl IH]; [reflexivity|].
  rewrite Forall_forall in Hl.
  change (sort_candidates (x :: l)) with (insert_sorted x (sort_candidates l)).
  destruct (sort_candidates l) as [|h t] eqn:S; cbn [insert_sorted].
  - subst l. split; [apply list_elem_of_here|].
    intros c ->%list_elem_of_singleton. now apply key_lt_irrefl.
  - destruct IH as [Hh Hmin]. destruct (key_lt h x) eqn:K.
    + split; [now apply list_elem_of_further|].
      intros c [->|Hc]%elem_of_cons; [|now apply Hmin].
      apply key_lt_asym; auto.
    + split; [apply list_elem_of_here|].
      intros c [->|Hc]%elem_of_cons; [now apply key_lt_irrefl|].
      apply key_lt_neg_trans with h; auto.
Qed.

Lemma elem_of_candidates_of (c : candidate) (topics : dict TopicState) :
  c ∈ candidates_of topics <->
  exists name st, (name, st) ∈ topics /\ flt (p_known st) MASTERY_THRESHOLD
                  /\ c = (name, p_known st, attempts st).
Proof.
  unfold candidates_of. rewrite list_elem_of_omap. split.
  - intros ([name st] & Hin & Hc). cbn in Hc.
    destruct (p_known st <? MASTERY_THRESHOLD) eqn:E; [|discriminate].
    injection Hc as <-. eauto.
  - intros (name & st & Hin & Hlt & ->). exists (name, st). split; [assumption|].
    cbn. unfold flt in Hlt. now rewrite Hlt.
Qed.

Lemma candidates_numeric (topics : dict TopicState) :
  Forall numeric (candidates_of topics).
Proof.
  rewrite Forall_forall. intros c (name & st & _ & Hlt & ->)%elem_of_candidates_of.
  unfold numeric. cbn. now apply ltb_is_number_l with MASTERY_THRESHOLD.
Qed.

(** *** The update *)

(** C2.  For every [p_known] in [[0, 1]] and either answer, the value
    [update_mastery] returns (posterior with its fallback, learning
    transition, clamp) lies in [[0.01, 0.99]]. *)
Theorem update_mastery_in_bounds (p_known : float) (is_correct : bool) :
  fle 0 p_known -> fle p_known 1 ->
  fle 0.01 (update_mastery p_known is_correct)
  /\ fle (update_mastery p_known is_correct) 0.99.
Proof.
  intros _ _. unfold update_mastery. apply clamp_bounds; reflexivity.
Qed.

Lemma update_mastery_in_bounds_witness :
  fle 0.01 (update_mastery 0.3 true) /\ fle (update_mastery 0.3 true) 0.99.
Proof. apply (update_mastery_in_bounds 0.3 true); reflexivity. Defined.

(** C4.  With the fixed parameters, from [p_known = 0.3] a correct answer
    gives [p_obs = 0.41], posterior 0.6585 and result 0.6927, and a wrong
    answer gives [p_obs = 0.59], posterior 0.0508 and result 0.1457, each
    to within one unit of the fourth decimal; the two results are the
    binary64 numbers printed 0.69268292682926835 and
    0.14576271186440679. *)
Theorem update_mastery_from_initial :
  p_learn = 0.1 /\ p_slip = 0.1 /\ p_guess = 0.2
  /\ approx 0.0001 (p_obs 0.3 true) 0.41
  /\ approx 0.0001 (p_known_given_obs 0.3 true) 0.6585
  /\ approx 0.0001 (update_mastery 0.3 true) 0.6927
  /\ approx 0.0001 (p_obs 0.3 false) 0.59
  /\ approx 0.0001 (p_known_given_obs 0.3 false) 0.0508
  /\ approx 0.0001 (update_mastery 0.3 false) 0.1457
  /\ update_mastery 0.3 true = 0.69268292682926835
  /\ update_mastery 0.3 false = 0.14576271186440679.
Proof. repeat split; vm_compute; reflexivity. Qed.

(** *** The suggestion *)

Section Suggest.
Context `{PyRuntime}.

(** C8.  [suggest_topic] looks at exactly the topics with
    [p_known < 0.95]: when there is none it answers that all are
    mastered, and otherwise it names one of them whose
    [(p_known, attempts)] is lexicographically least among them.  With
    A at mastery 0.2 after 5 attempts and B at 0.6 after 1, it names A. *)
Theorem suggest_topic_lowest_mastery :
  (forall file : progress_file,
      let topics := default [] (load_progress file) in
      match sg_suggestion (suggest_topic file).1 with
      | None =>
          sg_reason (suggest_topic file).1 = AllMastered
          /\ forall name st, (name, st) ∈ topics ->
                             (p_known st <? MASTERY_THRESHOLD) = false
      | Some name =>
          exists st,
            (name, st) ∈ topics /\ flt (p_known st) MASTERY_THRESHOLD
            /\ sg_attempts (suggest_topic file).1 = Some (attempts st)
            /\ forall name' st',
                (name', st') ∈ topics -> flt (p_known st') MASTERY_THRESHOLD ->
                lex_le (p_known st, attempts st) (p_known st', attempts st')
      end)
  /\ (forall cA dA cB dB : Z,
         sg_suggestion
           (suggest_topic
              (Some (Some [("A"%string, mkTopicState 0.2 5 cA dA);
                           ("B"%string, mkTopicState 0.6 1 cB dB)]))).1
         = Some "A"%string).
Proof.
  split; [|reflexivity].
  intros file topics. unfold suggest_topic. fold topics.
  pose proof (sort_candidates_head _ (candidates_numeric topics)) as Hd.
  pose proof (candidates_numeric topics) as Hn. rewrite Forall_forall in Hn.
  destruct (sort_candidates (candidates_of topics)) as [|[[name p] a] t]; cbn.
  - split; [reflexivity|]. intros name st Hin.
    destruct (p_known st <? MASTERY_THRESHOLD) eqn:E; [|reflexivity].
    assert ((name, p_known st, attempts st) ∈ candidates_of topics) as Hc
        by (apply elem_of_candidates_of; eauto).
    rewrite Hd in Hc. now apply elem_of_nil in Hc.
  - destruct Hd as [Hh Hmin].
    pose proof Hh as (name0 & st & Hin & Hlt & [= -> -> ->])%elem_of_candidates_of.
    exists st. repeat split; try assumption.
    intros name' st' Hin' Hlt'.
    assert ((name', p_known st', attempts st') ∈ candidates_of topics) as Hc
        by (apply elem_of_candidates_of; eauto).
    apply (key_lt_false_lex_le (name0, p_known st, attempts st)
             (name', p_known st', attempts st')); auto.
Qed.

End Suggest.

End knowledge_tracker_spec.

(** ** Review scheduling *)

Module spaced_scheduler_spec.

Import spaced_scheduler PyNumFacts.
Local Open Scope float_scope.

(** *** Slices *)

Lemma last_n_short {A} (n : nat) (l : list A) :
  (length l <= n)%nat -> last_n n l = l.
Proof.
  intros Hl. unfold last_n. now replace (length l - n)%nat with 0%nat by lia.
Qed.

Lemma length_last_n {A} (n : nat) (l : list A) :
  length (last_n n l) = Nat.min n (length l).
Proof. unfold last_n. rewrite length_drop. lia. Qed.

Lemma last_n_app_last_n {A} (n : nat) (l k : list A) :
  last_n n (last_n n l ++ k) = last_n n (l ++ k).
Proof.
  destruct (decide (length l <= n)%nat) as [Hs|Hs].
  - now rewrite (last_n_short n l).
  - unfold last_n at 1 3. rewrite !length_app, length_last_n.
    unfold last_n.
    rewrite <- (drop_app_le l k (length l - n)) by lia.
    rewrite drop_drop. f_equal. lia.
Qed.

(** The history [review] stores is the last 20 of the old one with the
    new record appended. *)
Lemma new_history_last_n (history : list QualityRecord) (q : Z) (now : datetime) :
  new_history history q now
  = last_n 20 (history ++ [{| quality := q; timestamp := now |}]).
Proof.
  unfold new_history.
  destruct (20 <? length (history ++ [_]))%nat eqn:E; [reflexivity|].
  apply Nat.ltb_ge in E. now rewrite last_n_short.
Qed.

Section Methods.
Context `{PyRuntime}.

(** *** One review *)

Lemma review_valid (self : SpacedScheduler) (topic_id : string) (quality : Z)
    (created now : datetime) (noise : float) :
  valid_quality quality ->
  let topic := (_get_topic_data self topic_id created).1 in
  schedule (review self topic_id quality created now noise).2
  = <[topic_id := reviewed topic quality now noise]> (schedule self).
Proof.
  intros [Hlo Hhi]. unfold review.
  apply Z.leb_le in Hlo, Hhi. rewrite Hlo, Hhi. cbn [negb andb].
  unfold _get_topic_data.
  destruct (schedule self !! topic_id) as [topic|] eqn:E; cbn [fst snd];
    destruct (next_review_date now _); cbn; try reflexivity;
    now rewrite insert_insert_eq.
Qed.

Lemma review_invalid (self : SpacedScheduler) (topic_id : string) (quality : Z)
    (created now : datetime) (noise : float) :
  ~ valid_quality quality ->
  review self topic_id quality created now noise = (Raise ValueError, self).
Proof.
  intros Hq. unfold review.
  destruct ((0 <=? quality)%Z && (quality <=? 5)%Z) eqn:E; [|reflexivity].
  apply andb_true_iff in E as [?%Z.leb_le ?%Z.leb_le].
  exfalso. apply Hq. split; assumption.
Qed.

Lemma review_lookup (self : SpacedScheduler) (topic_id : string) (quality : Z)
    (created now : datetime) (noise : float) :
  valid_quality quality ->
  schedule (review self topic_id quality created now noise).2 !! topic_id
  = Some (reviewed (_get_topic_data self topic_id created).1 quality now noise).
Proof. intros Hq. rewrite review_valid by assumption. apply lookup_insert_eq. Qed.

Lemma review_lookup_ne (self : SpacedScheduler) (topic_id other : string)
    (quality : Z) (created now : datetime) (noise : float) :
  other <> topic_id ->
  schedule (review self topic_id quality created now noise).2 !! other
  = schedule self !! other.
Proof.
  intros Hne. destruct (decide (valid_quality quality)) as [Hq|Hq].
  - rewrite review_valid by assumption. now apply lookup_insert_ne.
  - now rewrite review_invalid.
Qed.

Lemma get_topic_data_fst (self : SpacedScheduler) (topic_id : string)
    (created : datetime) :
  (_get_topic_data self topic_id created).1
  = default (default_topic created) (schedule self !! topic_id).
Proof. unfold _get_topic_data. now destruct (schedule self !! topic_id). Qed.

Lemma get_topic_data_file (self : SpacedScheduler) (topic_id : string)
    (created : datetime) :
  schedule_file (_get_topic_data self topic_id created).2 = schedule_file self.
Proof. unfold _get_topic_data. now destruct (schedule self !! topic_id). Qed.

(** How a validated review ends, by the outcome of line 158. *)
Lemma review_ends (self : SpacedScheduler) (topic_id : string) (quality : Z)
    (created now : datetime) (noise : float) :
  valid_quality quality ->
  let topic' := reviewed (_get_topic_data self topic_id created).1 quality now noise in
  match next_review_date now (interval topic') with
  | Ok date =>
      (exists result, (review self topic_id quality created now noise).1 = Ok result
                      /\ rr_ease_factor result = py_round (ease_factor topic') 2
                      /\ rr_interval_days result = py_round (interval topic') 1
                      /\ rr_next_review result = strftime (next_review topic')
                      /\ rr_repetitions result = repetitions topic'
                      /\ rr_total_reviews result = total_reviews topic')
      /\ schedule_file (review self topic_id quality created now noise).2
         = Some (schedule (review self topic_id quality created now noise).2)
  | Raise e =>
      (review self topic_id quality created now noise).1 = Raise e
      /\ schedule_file (review self topic_id quality created now noise).2
         = schedule_file self
  end.
Proof.
  intros [Hlo Hhi] topic'. subst topic'. unfold review.
  apply Z.leb_le in Hlo, Hhi. rewrite Hlo, Hhi. cbn [negb andb].
  pose proof (get_topic_data_file self topic_id created) as Hf.
  destruct (_get_topic_data self topic_id created) as [topic self1]. cbn [fst snd] in *.
  destruct (next_review_date now _) as [date|e]; cbn.
  - split; [|reflexivity]. eexists. split; [reflexivity|]. cbn. repeat split.
  - split; [reflexivity | exact Hf].
Qed.

Lemma reviewed_interval (topic : TopicData) (q : Z) (now : datetime) (noise : float) :
  interval (reviewed topic q now noise)
  = _add_noise (new_interval topic (new_ease_factor (ease_factor topic) q) q).2 noise.
Proof. unfold reviewed. now destruct (new_interval _ _ _). Qed.

Lemma reviewed_next_review (topic : TopicData) (q : Z) (now : datetime)
    (noise : float) :
  next_review (reviewed topic q now noise)
  = match next_review_date now (interval (reviewed topic q now noise)) with
    | Ok date => date
    | Raise _ => next_review topic
    end.
Proof. unfold reviewed. now destruct (new_interval _ _ _). Qed.

(** X27. The state machine of [review], with both ends of line 158.  A
    review with a quality in [[0, 5]] and a noise draw in [[-0.05, 0.05]]
    stores, for the topic, the nominal interval times [1 + noise].  For a
    quality of 3 or more the nominal interval is 1 day when the
    [repetitions] of the topic's record was 0 (or the topic had no record),
    6 days when it was 1, and the interval of the record times the ease
    factor (as this review updated it) when it was 2 or more, and
    [repetitions] is one more than it was; for a quality below 3 the nominal
    interval is 1 day and [repetitions] is 0, whatever the record held.
    When [now] plus that many days is a date (the
    [timedelta] exists, and the sum is within the years 1 to 9999), it is
    stored as the next review, the review returns its result and the file is
    written; when it is not, the review ends in the exception of that
    computation, the next review of the record stays what it was, and the
    file is not written. *)
Theorem review_state_machine (self : SpacedScheduler) (topic_id : string)
    (quality : Z) (created now : datetime) (noise : float) :
  valid_quality quality ->
  fle (- NOISE_FACTOR) noise -> fle noise NOISE_FACTOR ->
  let before := default (default_topic created) (schedule self !! topic_id) in
  let outcome := (review self topic_id quality created now noise).1 in
  let after := (review self topic_id quality created now noise).2 in
  exists (topic' : TopicData) (nominal : float),
    schedule after !! topic_id = Some topic'
    /\ interval topic' = nominal * (1 + noise)
    /\ ((quality < 3)%Z -> repetitions topic' = 0%Z /\ nominal = 1)
    /\ ((3 <= quality)%Z ->
        repetitions topic' = (repetitions before + 1)%Z
        /\ (repetitions before = 0%Z -> nominal = 1)
        /\ (repetitions before = 1%Z -> nominal = 6)
        /\ ((2 <= repetitions before)%Z ->
            nominal = interval before * ease_factor topic'))
    /\ (forall us : Z,
           timedelta_days (nominal * (1 + noise)) = Ok us ->
           (0 <= now + us <= datetime_max)%Z ->
           next_review topic' = (now + us)%Z
           /\ (exists result, outcome = Ok result)
           /\ schedule_file after = Some (schedule after))
    /\ (forall e : exn,
           next_review_date now (nominal * (1 + noise)) = Raise e ->
           outcome = Raise e
           /\ next_review topic' = next_review before
           /\ schedule_file after = schedule_file self).
Proof.
  intros Hq _ _ before outcome after.
  pose proof (review_lookup self topic_id quality created now noise Hq) as Hl.
  pose proof (review_ends self topic_id quality created now noise Hq) as He.
  rewrite get_topic_data_fst in Hl, He. fold before in Hl, He. cbn zeta in He.
  pose proof (reviewed_interval before quality now noise) as Hi.
  pose proof (reviewed_next_review before quality now noise) as Hn.
  exists (reviewed before quality now noise),
         (new_interval before (new_ease_factor (ease_factor before) quality) quality).2.
  split; [exact Hl|]. split; [exact Hi|].
  unfold _add_noise in Hi. rewrite Hi in He, Hn.
  repeat apply conj.
  - intros Hlt. unfold reviewed, new_interval.
    apply Z.ltb_lt in Hlt. rewrite Hlt. cbn. split; reflexivity.
  - intros Hge. unfold reviewed, new_interval.
    apply Z.ltb_ge in Hge. rewrite Hge. cbn. repeat apply conj.
    + reflexivity.
    + intros ->. reflexivity.
    + intros ->. reflexivity.
    + intros Hr.
      destruct (repetitions before =? 0)%Z eqn:E0; [apply Z.eqb_eq in E0; lia|].
      destruct (repetitions before =? 1)%Z eqn:E1; [apply Z.eqb_eq in E1; lia|].
      reflexivity.
  - intros us Hus [Hlo Hhi].
    assert (next_review_date now
              ((new_interval before (new_ease_factor (ease_factor before) quality)
                  quality).2 * (1 + noise)) = Ok (now + us)%Z) as Hd.
    { unfold next_review_date, datetime_add. rewrite Hus.
      apply Z.leb_le in Hlo, Hhi. now rewrite Hlo, Hhi. }
    rewrite Hd in He, Hn. destruct He as [(result & Hr & _) Hf].
    split; [exact Hn|]. split; [exists result; exact Hr | exact Hf].
  - intros e Hd. rewrite Hd in He, Hn. destruct He as [Hr Hf].
    split; [exact Hr|]. split; [exact Hn | exact Hf].
Qed.

(** C6.  A review whose quality is outside [[0, 5]] raises
    [ValueError] and leaves the scheduler as it was: the dictionary in
    memory and the file are those before the call, so no record changed
    and none was created. *)
Theorem review_invalid_quality_no_mutation (self : SpacedScheduler)
    (topic_id : string) (quality : Z) (created now : datetime) (noise : float) :
  ~ (0 <= quality <= 5)%Z ->
  review self topic_id quality created now noise = (Raise ValueError, self)
  /\ schedule (review self topic_id quality created now noise).2 = schedule self
  /\ schedule_file (review self topic_id quality created now noise).2
     = schedule_file self
  /\ schedule (review self topic_id quality created now noise).2 !! topic_id
     = schedule self !! topic_id.
Proof.
  intros Hq. rewrite review_invalid by exact Hq. repeat split; reflexivity.
Qed.

(** C10.  [get_stats] on a topic without a record returns [None] and
    leaves the scheduler as it was, while [_get_topic_data], which
    [review] starts with, puts the default record in the dictionary. *)
Theorem get_stats_unknown_topic (self : SpacedScheduler) (topic_id : string)
    (now : datetime) :
  schedule self !! topic_id = None ->
  get_stats self topic_id now = (None, self)
  /\ schedule (get_stats self topic_id now).2 !! topic_id = None
  /\ schedule (_get_topic_data self topic_id now).2 !! topic_id
     = Some (default_topic now)
  /\ forall quality created noise,
      valid_quality quality ->
      schedule (review self topic_id quality created now noise).2 !! topic_id
      = Some (reviewed (default_topic created) quality now noise).
Proof.
  intros Hnone. unfold get_stats, _get_topic_data. rewrite Hnone. cbn.
  repeat split; try assumption; [apply lookup_insert_eq|].
  intros quality created noise Hq. rewrite review_lookup by assumption.
  unfold _get_topic_data. now rewrite Hnone.
Qed.

(** C3, as the code has it.  A review with a quality in [[0, 5]] stores
    the ease factor [max(1.3, raw)], where [raw] is the old ease factor plus
    [0.1 - (5 - quality) * (0.08 + (5 - quality) * 0.02)] for a quality of 3
    or more, and the old ease factor minus 0.2 below 3; the stored value is
    at least 1.3, and is [raw] itself whenever [raw] exceeds 1.3 (there is
    no upper bound).  The amount added is 0.1 for quality 5, 0 for quality
    4, and -0.14 (to within 1e-9) for quality 3. *)
Theorem review_ease_factor (self : SpacedScheduler) (topic_id : string)
    (quality : Z) (created now : datetime) (noise : float) :
  valid_quality quality ->
  let topic := (_get_topic_data self topic_id created).1 in
  let raw := raw_ease_factor (ease_factor topic) quality in
  (exists topic' : TopicData,
      schedule (review self topic_id quality created now noise).2 !! topic_id
      = Some topic'
      /\ ease_factor topic' = py_max MIN_EASE_FACTOR raw
      /\ fle 1.3 (ease_factor topic')
      /\ (flt 1.3 raw -> ease_factor topic' = raw))
  /\ ((3 <= quality)%Z ->
      raw = ease_factor topic
            + (0.1 - float_of_int (5 - quality)
                     * (0.08 + float_of_int (5 - quality) * 0.02)))
  /\ ((quality < 3)%Z -> raw = ease_factor topic - 0.2)
  /\ ease_bonus 5 = 0.1 /\ ease_bonus 4 = 0 /\ approx 1e-9 (ease_bonus 3) (-0.14).
Proof.
  intros Hq topic raw. repeat apply conj.
  - exists (reviewed topic quality now noise). split; [now apply review_lookup|].
    unfold reviewed. destruct (new_interval _ _ _) as [reps nominal]. cbn.
    unfold new_ease_factor. fold raw. repeat split.
    + now apply py_max_lower.
    + unfold flt, py_max, MIN_EASE_FACTOR. now intros ->.
  - intros Hs. unfold raw, raw_ease_factor, ease_bonus.
    apply Z.leb_le in Hs. now rewrite Hs.
  - intros Hf. unfold raw, raw_ease_factor.
    apply Z.leb_gt in Hf. now rewrite Hf.
  - reflexivity.
  - reflexivity.
  - reflexivity.
Qed.

(** *** Sequences of calls *)

Lemma get_stats_unchanged (self : SpacedScheduler) (topic_id : string)
    (now : datetime) :
  (get_stats self topic_id now).2 = self.
Proof. unfold get_stats. now destruct (schedule self !! topic_id). Qed.

Lemma reset_topic_lookup (self : SpacedScheduler) (topic_id : string) :
  schedule (reset_topic self topic_id) !! topic_id = None.
Proof.
  unfold reset_topic. destruct (schedule self !! topic_id) eqn:E; cbn.
  - apply lookup_delete_eq.
  - exact E.
Qed.

Lemma reset_topic_lookup_ne (self : SpacedScheduler) (topic_id other : string) :
  other <> topic_id ->
  schedule (reset_topic self topic_id) !! other = schedule self !! other.
Proof.
  intros Hne. unfold reset_topic. destruct (schedule self !! topic_id); cbn.
  - now apply lookup_delete_ne.
  - reflexivity.
Qed.

(** What a call other than a reset of the topic does to the topic's
    record. *)
Lemma step_lookup (self : SpacedScheduler) (topic_id : string) (c : call) :
  c <> ResetTopic topic_id ->
  schedule (step self c) !! topic_id
  = match c with
    | Review id q created now noise =>
        if decide (id = topic_id /\ valid_quality q)
        then Some (reviewed (_get_topic_data self topic_id created).1 q now noise)
        else schedule self !! topic_id
    | _ => schedule self !! topic_id
    end.
Proof.
  intros Hc. destruct c as [id q created now noise|id now|id]; cbn.
  - destruct (decide (id = topic_id /\ valid_quality q)) as [[-> Hq]|Hn].
    + now apply review_lookup.
    + destruct (decide (id = topic_id)) as [->|Hne].
      * rewrite review_invalid; [reflexivity|]. intros Hq. apply Hn. now split.
      * apply review_lookup_ne. congruence.
  - now rewrite get_stats_unchanged.
  - apply reset_topic_lookup_ne. congruence.
Qed.

Lemma reviewed_history_length (topic : TopicData) (q : Z) (now : datetime)
    (noise : float) :
  (length (quality_history (reviewed topic q now noise)) <= 20)%nat.
Proof.
  unfold reviewed. destruct (new_interval _ _ _) as [reps nominal]. cbn.
  rewrite new_history_last_n, length_last_n. lia.
Qed.

Lemma reviewed_history (topic : TopicData) (q : Z) (now : datetime) (noise : float) :
  quality_history (reviewed topic q now noise)
  = last_n 20 (quality_history topic ++ [{| quality := q; timestamp := now |}]).
Proof.
  unfold reviewed. destruct (new_interval _ _ _) as [reps nominal]. cbn.
  apply new_history_last_n.
Qed.

Lemma reviewed_total (topic : TopicData) (q : Z) (now : datetime) (noise : float) :
  total_reviews (reviewed topic q now noise) = (total_reviews topic + 1)%Z.
Proof.
  unfold reviewed. now destruct (new_interval _ _ _) as [reps nominal].
Qed.

Lemma get_topic_data_history (self : SpacedScheduler) (topic_id : string)
    (created : datetime) :
  quality_history (_get_topic_data self topic_id created).1 = history_of self topic_id.
Proof.
  unfold _get_topic_data, history_of. now destruct (schedule self !! topic_id).
Qed.

Lemma get_topic_data_total (self : SpacedScheduler) (topic_id : string)
    (created : datetime) :
  total_reviews (_get_topic_data self topic_id created).1 = total_of self topic_id.
Proof.
  unfold _get_topic_data, total_of, observed_total_reviews.
  now destruct (schedule self !! topic_id).
Qed.

Lemma step_history_capped (self : SpacedScheduler) (c : call) :
  history_capped self -> history_capped (step self c).
Proof.
  intros Hcap id topic. destruct c as [id' q created now noise|id' now|id'].
  - rewrite step_lookup by discriminate.
    destruct (decide _); [|apply Hcap]. intros [= <-]. apply reviewed_history_length.
  - rewrite step_lookup by discriminate. apply Hcap.
  - cbn. destruct (decide (id = id')) as [->|Hne].
    + now rewrite reset_topic_lookup.
    + rewrite reset_topic_lookup_ne by assumption. apply Hcap.
Qed.

Lemma run_history_capped (self : SpacedScheduler) (calls : list call) :
  history_capped self -> history_capped (run self calls).
Proof.
  revert self. induction calls as [|c calls IH]; intros self Hcap; [exact Hcap|].
  cbn. apply IH. now apply step_history_capped.
Qed.

Lemma step_history (self : SpacedScheduler) (topic_id : string) (c : call) :
  c <> ResetTopic topic_id ->
  (length (history_of self topic_id) <= 20)%nat ->
  history_of (step self c) topic_id
  = last_n 20 (history_of self topic_id ++ option_list (recorded topic_id c))
  /\ (length (history_of (step self c) topic_id) <= 20)%nat.
Proof.
  intros Hc Hlen. unfold history_of at 1 3. rewrite step_lookup by assumption.
  assert (forall h : list QualityRecord, (length h <= 20)%nat ->
            h = last_n 20 (h ++ []) /\ (length h <= 20)%nat) as Hnil
      by (intros h Hh; rewrite app_nil_r, last_n_short; auto).
  destruct c as [id q created now noise|id now|id]; cbn [recorded option_list].
  - destruct (decide _); cbn [option_list].
    + rewrite reviewed_history, get_topic_data_history.
      split; [reflexivity|]. rewrite length_last_n. lia.
    + apply Hnil, Hlen.
  - apply Hnil, Hlen.
  - apply Hnil, Hlen.
Qed.

Lemma run_history (self : SpacedScheduler) (topic_id : string) (calls : list call) :
  ResetTopic topic_id ∉ calls ->
  (length (history_of self topic_id) <= 20)%nat ->
  history_of (run self calls) topic_id
  = last_n 20 (history_of self topic_id ++ omap (recorded topic_id) calls).
Proof.
  revert self. induction calls as [|c calls IH]; intros self Hno Hlen.
  - cbn. rewrite app_nil_r, last_n_short; auto.
  - apply not_elem_of_cons in Hno as [Hc Hno].
    destruct (step_history self topic_id c) as [Hs Hl]; [congruence|assumption|].
    change (run self (c :: calls)) with (run (step self c) calls).
    rewrite IH by assumption. rewrite Hs, last_n_app_last_n, <- app_assoc.
    do 2 f_equal. cbn. now destruct (recorded topic_id c).
Qed.

Lemma step_observed (self : SpacedScheduler) (topic_id : string) (c : call) (n : Z) :
  c <> ResetTopic topic_id ->
  observed_total_reviews self topic_id = Some n ->
  observed_total_reviews (step self c) topic_id
  = Some (n + Z.of_nat (length (option_list (recorded topic_id c))))%Z.
Proof.
  intros Hc Hn. unfold observed_total_reviews at 1. rewrite step_lookup by assumption.
  assert (total_of self topic_id = n) as Ht by (unfold total_of; now rewrite Hn).
  assert (total_reviews <$> schedule self !! topic_id = Some (n + 0)%Z) as Hsame
      by (rewrite Z.add_0_r; exact Hn).
  destruct c as [id q created now noise|id now|id]; cbn [recorded option_list length];
    try exact Hsame.
  destruct (decide _); cbn; [|exact Hsame].
  now rewrite reviewed_total, get_topic_data_total, Ht.
Qed.

Lemma run_observed (self : SpacedScheduler) (topic_id : string) (calls : list call)
    (n : Z) :
  ResetTopic topic_id ∉ calls ->
  observed_total_reviews self topic_id = Some n ->
  observed_total_reviews (run self calls) topic_id
  = Some (n + Z.of_nat (length (omap (recorded topic_id) calls)))%Z.
Proof.
  revert self n. induction calls as [|c calls IH]; intros self n Hno Hn.
  - cbn. now rewrite Z.add_0_r.
  - apply not_elem_of_cons in Hno as [Hc Hno].
    change (run self (c :: calls)) with (run (step self c) calls).
    rewrite (IH _ _ Hno (step_observed self topic_id c n ltac:(congruence) Hn)).
    f_equal. cbn. destruct (recorded topic_id c); cbn; lia.
Qed.

(** C5.  Along every sequence of calls no history grows beyond 20 records
    once none is longer; a review that passes validation leaves, for its
    topic, the last 20 of the old history with its own record appended
    (so the records stay in the order of the calls); after any calls that do
    not reset the topic, its history is the last 20 of the records its
    reviews added, in order; and when 21 were added to a topic without a
    history, the first is gone and the other 20 are what is stored. *)
Theorem quality_history_capped :
  (forall (self : SpacedScheduler) (calls : list call),
      history_capped self -> history_capped (run self calls))
  /\ (forall calls : list call, history_capped (run (init None) calls))
  /\ (forall (self : SpacedScheduler) (topic_id : string) (quality : Z)
             (created now : datetime) (noise : float),
         valid_quality quality ->
         let after := (review self topic_id quality created now noise).2 in
         history_of after topic_id
         = last_n 20 (history_of self topic_id
                      ++ [{| quality := quality; timestamp := now |}])
         /\ (length (history_of after topic_id) <= 20)%nat)
  /\ (forall (self : SpacedScheduler) (topic_id : string) (calls : list call),
         (length (history_of self topic_id) <= 20)%nat ->
         ResetTopic topic_id ∉ calls ->
         history_of (run self calls) topic_id
         = last_n 20 (history_of self topic_id ++ omap (recorded topic_id) calls))
  /\ (forall (self : SpacedScheduler) (topic_id : string) (calls : list call)
             (oldest : QualityRecord) (others : list QualityRecord),
         history_of self topic_id = [] ->
         ResetTopic topic_id ∉ calls ->
         omap (recorded topic_id) calls = oldest :: others ->
         length others = 20%nat ->
         history_of (run self calls) topic_id = others).
Proof.
  repeat apply conj.
  - apply run_history_capped.
  - intros calls. apply run_history_capped. intros id topic. cbn.
    now rewrite lookup_empty.
  - intros self topic_id quality created now noise Hq after.
    unfold after, history_of at 1 3. rewrite review_lookup by assumption.
    rewrite reviewed_history, get_topic_data_history.
    split; [reflexivity|]. rewrite length_last_n. lia.
  - intros self topic_id calls Hlen Hno. now apply run_history.
  - intros self topic_id calls oldest others Hempty Hno Hrec Hlen.
    rewrite run_history; [|assumption|rewrite Hempty; cbn; lia].
    rewrite Hempty, Hrec. cbn [app]. unfold last_n. cbn [length].
    rewrite Hlen. reflexivity.
Qed.

(** C7, as the code has it.  A review that passes validation makes the
    topic's [total_reviews] one more than it was (zero for a topic without
    a record); along any calls that do not reset the topic the count of a
    recorded topic grows by the number of its validated reviews, so it never
    gets smaller; [reset_topic] deletes the record, and the next review
    then reports 1. *)
Theorem total_reviews_monotone_until_reset :
  (forall (self : SpacedScheduler) (topic_id : string) (quality : Z)
          (created now : datetime) (noise : float),
      valid_quality quality ->
      observed_total_reviews (review self topic_id quality created now noise).2 topic_id
      = Some (total_of self topic_id + 1)%Z)
  /\ (forall (self : SpacedScheduler) (topic_id : string) (calls : list call) (n : Z),
         ResetTopic topic_id ∉ calls ->
         observed_total_reviews self topic_id = Some n ->
         exists m : Z,
           observed_total_reviews (run self calls) topic_id = Some m
           /\ m = (n + Z.of_nat (length (omap (recorded topic_id) calls)))%Z
           /\ (n <= m)%Z)
  /\ (forall (self : SpacedScheduler) (topic_id : string),
         observed_total_reviews (reset_topic self topic_id) topic_id = None
         /\ forall quality created now noise,
             valid_quality quality ->
             observed_total_reviews
               (review (reset_topic self topic_id) topic_id quality created now noise).2
               topic_id
             = Some 1%Z).
Proof.
  repeat apply conj.
  - intros self topic_id quality created now noise Hq.
    unfold observed_total_reviews at 1. rewrite review_lookup by assumption.
    cbn. now rewrite reviewed_total, get_topic_data_total.
  - intros self topic_id calls n Hno Hn.
    exists (n + Z.of_nat (length (omap (recorded topic_id) calls)))%Z.
    split; [exact (run_observed self topic_id calls n Hno Hn)|].
    split; [reflexivity|lia].
  - intros self topic_id.
    assert (observed_total_reviews (reset_topic self topic_id) topic_id = None) as Hr
        by (unfold observed_total_reviews; now rewrite reset_topic_lookup).
    split; [exact Hr|]. intros quality created now noise Hq.
    unfold observed_total_reviews at 1. rewrite review_lookup by assumption.
    cbn. rewrite reviewed_total, get_topic_data_total. unfold total_of. now rewrite Hr.
Qed.

End Methods.

(** *** Examples *)

Lemma review_state_machine_witness :
  exists t1 t2 t3 : TopicData,
    schedule (perfect 1) !! "paging" = Some t1
    /\ schedule (perfect 2) !! "paging" = Some t2
    /\ schedule (perfect 3) !! "paging" = Some t3
    /\ interval t1 = 1 * (1 + 0) /\ interval t2 = 6 * (1 + 0)
    /\ interval t3 = interval t2 * ease_factor t3 * (1 + 0)
    /\ next_review t1 = (year_2026 + 86400000000)%Z.
Proof.
  destruct (review_state_machine (H := example_runtime) (perfect 0) "paging" 5%Z
              year_2026 year_2026 0)
    as (t1 & n1 & Hl1 & Hi1 & _ & Hs1 & Hd1 & _);
    [split; discriminate | reflexivity | reflexivity |].
  destruct Hs1 as (_ & Hn1 & _); [discriminate|]. specialize (Hn1 eq_refl). subst n1.
  destruct (Hd1 86400000000%Z) as (Hr1 & _); [reflexivity | split; discriminate |].
  destruct (review_state_machine (H := example_runtime) (perfect 1) "paging" 5%Z
              year_2026 year_2026 0)
    as (t2 & n2 & Hl2 & Hi2 & _ & Hs2 & _);
    [split; discriminate | reflexivity | reflexivity |].
  destruct Hs2 as (_ & _ & Hn2 & _); [discriminate|]. specialize (Hn2 eq_refl). subst n2.
  destruct (review_state_machine (H := example_runtime) (perfect 2) "paging" 5%Z
              year_2026 year_2026 0)
    as (t3 & n3 & Hl3 & Hi3 & _ & Hs3 & _);
    [split; discriminate | reflexivity | reflexivity |].
  destruct Hs3 as (_ & _ & _ & Hn3); [discriminate|].
  specialize (Hn3 ltac:(vm_compute; discriminate)).
  assert (schedule (perfect 2) !! "paging" = Some t2) as Hl2' by exact Hl2.
  rewrite Hl2' in Hn3. cbn in Hn3. subst n3.
  exists t1, t2, t3. repeat split; assumption.
Defined.

(** C1, where the code fails the claim: the 14th review in a row with
    quality 5, in 2026, asks for a date more than eleven million days
    ahead, beyond the year 9999 (more than five million days ahead with the
    lowest noise draw every time; with the highest, the 13th review already
    does).  The review ends in [OverflowError] at
    line 158 and returns nothing; the record in memory has its counters and
    interval updated and its next review left at the date the 13th review
    set, and the file still holds the state after 13 reviews: no next
    review is stored for the interval of this review. *)
Theorem fourteenth_perfect_review_overflows :
  exists before after : TopicData,
    schedule (perfect 13) !! "paging" = Some before
    /\ (review (H := example_runtime) (streak (-0.05) 13) "paging" 5
          year_2026 year_2026 (-0.05)).1 = Raise OverflowError
    /\ (review (H := example_runtime) (streak 0.05 12) "paging" 5
          year_2026 year_2026 0.05).1 = Raise OverflowError
    /\ (review (H := example_runtime) (perfect 13) "paging" 5
          year_2026 year_2026 0).1 = Raise OverflowError
    /\ schedule (review (H := example_runtime) (perfect 13) "paging" 5
                   year_2026 year_2026 0).2 !! "paging" = Some after
    /\ total_reviews after = 14%Z /\ repetitions after = 14%Z
    /\ fle 11000000 (interval after)
    /\ next_review after = next_review before
    /\ schedule_file (review (H := example_runtime) (perfect 13) "paging" 5
                        year_2026 year_2026 0).2
       = Some (schedule (perfect 13)).
Proof.
  do 2 eexists. split; [vm_compute; reflexivity|].
  split; [vm_compute; reflexivity|]. split; [vm_compute; reflexivity|].
  split; [vm_compute; reflexivity|]. split; [vm_compute; reflexivity|].
  repeat split; vm_compute; reflexivity.
Qed.

Lemma review_ease_factor_witness :
  exists topic' : TopicData,
    schedule (review (H := example_runtime) fresh "paging" 5 0 0 0).2 !! "paging"
    = Some topic'
    /\ ease_factor topic' = 2.6.
Proof.
  destruct (review_ease_factor (H := example_runtime) fresh "paging" 5%Z 0%Z 0%Z 0)
    as ((topic' & Hl & He & _) & _); [split; discriminate|].
  exists topic'. split; [exact Hl|]. rewrite He. reflexivity.
Defined.

(** C3, where the claim fails: a quality of 4 adds nothing to the ease
    factor, so a topic at 2.5 stays at 2.5 and does not reach 2.52. *)
Lemma quality_4_adds_nothing :
  ease_bonus 4 = 0
  /\ ~ approx 0.01 (ease_bonus 4) 0.02
  /\ raw_ease_factor 2.5 4 = 2.5
  /\ exists topic' : TopicData,
      schedule (review (H := example_runtime) fresh "paging" 4 0 0 0).2 !! "paging"
      = Some topic'
      /\ ease_factor topic' = 2.5.
Proof.
  repeat apply conj; try reflexivity.
  - unfold approx, flt. vm_compute. discriminate.
  - eexists. split; [apply review_lookup; split; discriminate|]. reflexivity.
Qed.

Lemma review_invalid_quality_no_mutation_witness :
  review (H := example_runtime) fresh "paging" 6 0 0 0 = (Raise ValueError, fresh).
Proof.
  apply (review_invalid_quality_no_mutation (H := example_runtime) fresh "paging" 6%Z 0%Z 0%Z 0).
  intros [_ Hhi]. now apply Hhi.
Defined.

Lemma get_stats_unknown_topic_witness :
  get_stats (H := example_runtime) fresh "paging" 0 = (None, fresh).
Proof.
  apply (get_stats_unknown_topic (H := example_runtime) fresh "paging" 0%Z).
  reflexivity.
Defined.

Lemma reviews_21_no_reset : ResetTopic "paging" ∉ reviews_21.
Proof.
  unfold reviews_21. intros (i & Hi & _)%list_elem_of_fmap. discriminate.
Qed.

Lemma quality_history_capped_witness :
  history_of (run (H := example_runtime) fresh reviews_21) "paging"
  = map (fun i => {| quality := i mod 6; timestamp := i |}) (seqZ 2 20).
Proof.
  apply (proj2 (proj2 (proj2 (proj2 (quality_history_capped (H := example_runtime)))))
           fresh "paging" reviews_21 {| quality := 1%Z; timestamp := 1%Z |}).
  - reflexivity.
  - exact reviews_21_no_reset.
  - reflexivity.
  - reflexivity.
Defined.

Lemma total_reviews_monotone_until_reset_witness :
  exists m : Z,
    observed_total_reviews
      (run (H := example_runtime)
           (review (H := example_runtime) fresh "paging" 3 0 0 0).2 reviews_21) "paging"
    = Some m
    /\ (1 <= m)%Z.
Proof.
  destruct (proj1 (proj2 (total_reviews_monotone_until_reset (H := example_runtime)))
              (review (H := example_runtime) fresh "paging" 3 0 0 0).2
              "paging" reviews_21 1%Z reviews_21_no_reset eq_refl)
    as (m & Hm & _ & Hle).
  exists m. split; [exact Hm | exact Hle].
Defined.

(** C7, where the claim fails: two reviews report a count of 2, and after
    a reset the next review reports 1. *)
Lemma total_reviews_restarts_after_reset :
  let two := [Review "paging" 5 0 1 0; Review "paging" 4 0 2 0] in
  let again := [ResetTopic "paging"; Review "paging" 5 3 3 0] in
  exists before after : Z,
    observed_total_reviews (run (H := example_runtime) fresh two) "paging"
    = Some before
    /\ observed_total_reviews
         (run (H := example_runtime) (run (H := example_runtime) fresh two) again)
         "paging"
       = Some after
    /\ (after < before)%Z.
Proof.
  exists 2%Z, 1%Z. repeat split.
Qed.

End spaced_scheduler_spec.

(** ** The read operations *)

Module read_operations_spec.

Import knowledge_tracker spaced_scheduler spaced_scheduler_spec.
Local Open Scope float_scope.

Lemma dict_get_set {V} (d : dict V) (k : string) (v : V) :
  dict_get (dict_set d k v) k = Some v.
Proof.
  induction d as [|[k' v'] d IH]; cbn.
  - now rewrite String.eqb_refl.
  - destruct (String.eqb k k') eqn:E; cbn; rewrite E; [reflexivity | exact IH].
Qed.

Lemma get_topic_state_known (p : progress) (topic : string) (st : TopicState) :
  dict_get (default [] p) topic = Some st -> get_topic_state p topic = (st, p).
Proof. intros E. unfold get_topic_state. now rewrite E. Qed.

Lemma get_topic_state_new (p : progress) (topic : string) :
  dict_get (default [] p) topic = None ->
  get_topic_state p topic
  = (default_state, Some (dict_set (default [] p) topic default_state)).
Proof. intros E. unfold get_topic_state. now rewrite E. Qed.

Section Reads.
Context `{PyRuntime}.

Lemma get_topic_mastery_known (file : progress_file) (topic : string)
    (st : TopicState) :
  dict_get (default [] (load_progress file)) topic = Some st ->
  (get_topic_mastery file topic).2 = file.
Proof.
  intros E. unfold get_topic_mastery. rewrite (get_topic_state_known _ _ _ E). cbn.
  destruct file as [p|]; [reflexivity | discriminate].
Qed.

Lemma get_topic_mastery_new (file : progress_file) (topic : string) :
  dict_get (default [] (load_progress file)) topic = None ->
  (get_topic_mastery file topic).2
  = Some (Some (dict_set (default [] (load_progress file)) topic default_state)).
Proof.
  intros E. unfold get_topic_mastery. now rewrite (get_topic_state_new _ _ E).
Qed.

(** C9, as the code has it.  [get_all_status] and [get_stats] leave the
    store as it was, always.  [get_topic_mastery] leaves it as it was for a
    topic that has a state; for one that has none it stores the default
    state (creating the file when there is none).  Either way a second
    [get_topic_mastery] of the same topic returns what the first returned
    and leaves the store as the first left it. *)
Theorem reads_and_the_store :
  (forall file : progress_file, (get_all_status file).2 = file)
  /\ (forall (self : SpacedScheduler) (topic_id : string) (now : datetime),
         (get_stats self topic_id now).2 = self)
  /\ (forall (file : progress_file) (topic : string) (st : TopicState),
         dict_get (default [] (load_progress file)) topic = Some st ->
         (get_topic_mastery file topic).2 = file)
  /\ (forall (file : progress_file) (topic : string),
         dict_get (default [] (load_progress file)) topic = None ->
         (get_topic_mastery file topic).2
         = Some (Some (dict_set (default [] (load_progress file)) topic default_state)))
  /\ (forall (file : progress_file) (topic : string),
         get_topic_mastery (get_topic_mastery file topic).2 topic
         = get_topic_mastery file topic).
Proof.
  repeat apply conj.
  - reflexivity.
  - apply get_stats_unchanged.
  - apply get_topic_mastery_known.
  - apply get_topic_mastery_new.
  - intros file topic.
    destruct (dict_get (default [] (load_progress file)) topic) as [st|] eqn:E.
    + now rewrite (get_topic_mastery_known _ _ _ E).
    + rewrite (get_topic_mastery_new _ _ E).
      unfold get_topic_mastery at 1 2. cbn [load_progress].
      rewrite (get_topic_state_new _ _ E).
      rewrite (get_topic_state_known _ _ default_state); [reflexivity|].
      cbn. apply dict_get_set.
Qed.

End Reads.

Lemma reads_and_the_store_witness :
  (get_topic_mastery (H := example_runtime)
     (Some (Some [("paging"%string, mkTopicState 0.5 2 1 1)])) "paging").2
  = Some (Some [("paging"%string, mkTopicState 0.5 2 1 1)]).
Proof.
  apply (proj1 (proj2 (proj2 (reads_and_the_store (H := example_runtime))))
           (Some (Some [("paging"%string, mkTopicState 0.5 2 1 1)])) "paging"
           (mkTopicState 0.5 2 1 1)).
  reflexivity.
Defined.

(** C9, where the claim fails: with no progress file, one
    [get_topic_mastery] stores the default state of the topic it was asked
    about. *)
Lemma get_topic_mastery_writes_default :
  (get_topic_mastery (H := example_runtime) None "paging").2
  = Some (Some [("paging"%string, default_state)])
  /\ (get_topic_mastery (H := example_runtime) None "paging").2 <> None.
Proof. split; [reflexivity | discriminate]. Qed.

End read_operations_spec.

(** ** The queries of the scheduler *)

Module spaced_scheduler_queries_spec.

Import spaced_scheduler spaced_scheduler_spec.
Local Open Scope Z_scope.

(** *** Sorting by date *)

Lemma insert_by_date_perm (x : string * datetime) (l : list (string * datetime)) :
  insert_by_date x l ≡ₚ x :: l.
Proof.
  induction l as [|y l IH]; cbn; [reflexivity|].
  destruct (y.2 <? x.2); [|reflexivity].
  rewrite IH. apply Permutation_swap.
Qed.

Lemma sort_by_date_perm (l : list (string * datetime)) : sort_by_date l ≡ₚ l.
Proof.
  induction l as [|x l IH]; cbn; [reflexivity|].
  rewrite insert_by_date_perm. now rewrite IH.
Qed.

Lemma insert_by_date_sorted (x : string * datetime) (l : list (string * datetime)) :
  StronglySorted by_date l -> StronglySorted by_date (insert_by_date x l).
Proof.
  induction l as [|y l IH]; cbn; intros Hs.
  - repeat constructor.
  - apply StronglySorted_cons in Hs as [Hy Hs].
    destruct (y.2 <? x.2) eqn:E; apply StronglySorted_cons.
    + split; [|now apply IH].
      rewrite insert_by_date_perm. constructor; [|exact Hy].
      apply Z.ltb_lt in E. unfold by_date. lia.
    + apply Z.ltb_ge in E. split.
      * constructor; [exact E|].
        eapply Forall_impl; [exact Hy|]. unfold by_date. intros z Hz. cbn in *. lia.
      * now apply StronglySorted_cons.
Qed.

Lemma sort_by_date_sorted (l : list (string * datetime)) :
  StronglySorted by_date (sort_by_date l).
Proof.
  induction l as [|x l IH]; cbn; [constructor|]. now apply insert_by_date_sorted.
Qed.

(** *** Slices *)

Lemma slice_to_take {A} (k : Z) (l : list A) : exists n : nat, slice_to k l = take n l.
Proof. unfold slice_to. destruct (k <? 0); eauto. Qed.

Lemma limited_take {A} (limit : option Z) (l : list A) :
  exists n : nat, limited limit l = take n l.
Proof.
  destruct limit as [k|]; cbn.
  - destruct (k =? 0); [|apply slice_to_take].
    exists (length l). now rewrite firstn_all.
  - exists (length l). now rewrite firstn_all.
Qed.

Lemma take_sorted {A} (R : relation A) (n : nat) (l : list A) :
  StronglySorted R l -> StronglySorted R (take n l).
Proof.
  intros Hs. rewrite <- (take_drop n l) in Hs. now apply StronglySorted_app_1_l in Hs.
Qed.


(** *** The items of the dictionary *)

Section Queries.
Context `{DictOrder}.

Lemma elem_of_schedule_items (m : gmap string TopicData) (topic_id : string)
    (topic : TopicData) :
  (topic_id, topic) ∈ schedule_items m <-> m !! topic_id = Some topic.
Proof. rewrite schedule_items_perm. apply elem_of_map_to_list. Qed.

Lemma NoDup_schedule_items (m : gmap string TopicData) :
  NoDup (schedule_items m).*1.
Proof. rewrite schedule_items_perm. apply NoDup_fst_map_to_list. Qed.

(** The selection loops keep the topics in order, each with its date. *)
Lemma selection_sublist (keep : TopicData -> bool) (l : list (string * TopicData)) :
  (omap (fun kv => if keep kv.2 then Some (kv.1, next_review kv.2) else None) l).*1
  `sublist_of` l.*1.
Proof.
  induction l as [|[k v] l IH]; cbn; [constructor|].
  destruct (keep v); cbn; [now apply sublist_skip | now apply sublist_cons].
Qed.

Lemma elem_of_selection (keep : TopicData -> bool) (m : gmap string TopicData)
    (topic_id : string) (date : datetime) :
  (topic_id, date)
    ∈ omap (fun kv => if keep kv.2 then Some (kv.1, next_review kv.2) else None)
        (schedule_items m)
  <-> exists topic, m !! topic_id = Some topic /\ next_review topic = date
                    /\ keep topic = true.
Proof.
  rewrite list_elem_of_omap. split.
  - intros ([k v] & Hin & Hf). cbn in Hf. destruct (keep v) eqn:E; [|discriminate].
    injection Hf as <- <-. exists v. now rewrite <- elem_of_schedule_items.
  - intros (topic & Hl & <- & Hk). exists (topic_id, topic).
    split; [now apply elem_of_schedule_items|]. cbn. now rewrite Hk.
Qed.

(** *** Due topics *)

Lemma get_due_topics_unlimited (self : SpacedScheduler) (now : datetime) :
  get_due_topics self None now
  = sort_by_date
      (omap (fun kv => if is_due now kv.2 then Some (kv.1, next_review kv.2) else None)
            (schedule_items (schedule self))).
Proof. reflexivity. Qed.

Lemma upcoming_until_unlimited (self : SpacedScheduler) (cutoff now : datetime) :
  upcoming_until self cutoff None now
  = sort_by_date
      (omap (fun kv => if is_upcoming now cutoff kv.2
                       then Some (kv.1, next_review kv.2) else None)
            (schedule_items (schedule self))).
Proof. reflexivity. Qed.

Lemma get_due_topics_limited (self : SpacedScheduler) (limit : option Z)
    (now : datetime) :
  get_due_topics self limit now = limited limit (get_due_topics self None now).
Proof. reflexivity. Qed.

Lemma upcoming_until_limited (self : SpacedScheduler) (cutoff : datetime)
    (limit : option Z) (now : datetime) :
  upcoming_until self cutoff limit now
  = limited limit (upcoming_until self cutoff None now).
Proof. reflexivity. Qed.

(** Line 225: the cutoff is a date, [days] days after [now], or the line
    raises [OverflowError]. *)
Lemma get_upcoming_topics_cutoff (self : SpacedScheduler) (days : Z)
    (limit : option Z) (now : datetime) :
  get_upcoming_topics self days limit now
  = if decide (Z.abs days <= 999999999
               /\ 0 <= now + days * 86400000000 <= datetime_max)
    then Ok (upcoming_until self (now + days * 86400000000) limit now)
    else Raise OverflowError.
Proof.
  unfold get_upcoming_topics, timedelta_int_days, datetime_add.
  destruct (Z.abs days <=? 999999999) eqn:Ed.
  - apply Z.leb_le in Ed.
    destruct (0 <=? now + days * 86400000000) eqn:El; cbn [andb].
    + apply Z.leb_le in El.
      destruct (now + days * 86400000000 <=? datetime_max) eqn:Eh.
      * apply Z.leb_le in Eh. destruct (decide _) as [_|Hn]; [reflexivity|lia].
      * apply Z.leb_gt in Eh. destruct (decide _) as [Hy|_]; [lia|reflexivity].
    + apply Z.leb_gt in El. destruct (decide _) as [Hy|_]; [lia|reflexivity].
  - apply Z.leb_gt in Ed. destruct (decide _) as [Hy|_]; [lia|reflexivity].
Qed.

Lemma elem_of_due (self : SpacedScheduler) (now : datetime) (topic_id : string)
    (date : datetime) :
  (topic_id, date) ∈ get_due_topics self None now
  <-> exists topic, schedule self !! topic_id = Some topic
                    /\ next_review topic = date /\ date <= now.
Proof.
  rewrite get_due_topics_unlimited, sort_by_date_perm, elem_of_selection.
  unfold is_due. split; intros (topic & Hl & Hd & Hk); exists topic;
    (split; [exact Hl|]; split; [exact Hd|]); subst date;
    [now apply Z.leb_le | now apply Z.leb_le].
Qed.

Lemma elem_of_upcoming (self : SpacedScheduler) (cutoff now : datetime)
    (topic_id : string) (date : datetime) :
  (topic_id, date) ∈ upcoming_until self cutoff None now
  <-> exists topic, schedule self !! topic_id = Some topic
                    /\ next_review topic = date /\ now < date <= cutoff.
Proof.
  rewrite upcoming_until_unlimited, sort_by_date_perm, elem_of_selection.
  unfold is_upcoming. split; intros (topic & Hl & Hd & Hk); exists topic;
    (split; [exact Hl|]; split; [exact Hd|]); subst date.
  - apply andb_true_iff in Hk as [?%Z.ltb_lt ?%Z.leb_le]. lia.
  - apply andb_true_iff. split; [apply Z.ltb_lt | apply Z.leb_le]; lia.
Qed.

Lemma NoDup_selection (keep : TopicData -> bool) (m : gmap string TopicData) :
  NoDup (sort_by_date
           (omap (fun kv => if keep kv.2 then Some (kv.1, next_review kv.2) else None)
                 (schedule_items m))).*1.
Proof.
  rewrite sort_by_date_perm.
  eapply sublist_NoDup; [apply NoDup_schedule_items | apply selection_sublist].
Qed.

Lemma NoDup_limited (limit : option Z) (l : list (string * datetime)) :
  NoDup l.*1 -> NoDup (limited limit l).*1.
Proof.
  intros Hn. destruct (limited_take limit l) as [n ->].
  rewrite fmap_take. eapply sublist_NoDup; [exact Hn | apply sublist_take].
Qed.

Lemma elem_of_limited {A} (limit : option Z) (l : list A) (x : A) :
  x ∈ limited limit l -> x ∈ l.
Proof.
  destruct (limited_take limit l) as [n ->]. intros Hx.
  eapply elem_of_sublist; [exact Hx | apply sublist_take].
Qed.

(** X1. With no limit, and with a limit of 0, [get_due_topics] lists exactly
    the topics whose [next_review] is not after [now], each once and with
    that date; on an empty schedule it lists nothing, whatever the limit. *)
Theorem get_due_topics_exact (self : SpacedScheduler) (now : datetime) :
  (forall topic_id date,
      (topic_id, date) ∈ get_due_topics self None now
      <-> exists topic, schedule self !! topic_id = Some topic
                        /\ next_review topic = date /\ date <= now)
  /\ NoDup (get_due_topics self None now).*1
  /\ get_due_topics self (Some 0) now = get_due_topics self None now
  /\ (schedule self = ∅ -> forall limit, get_due_topics self limit now = []).
Proof.
  repeat apply conj.
  - apply elem_of_due.
  - rewrite get_due_topics_unlimited. apply NoDup_selection.
  - reflexivity.
  - intros Hempty limit. apply elem_of_nil_inv. intros [topic_id date] Hin.
    rewrite get_due_topics_limited in Hin. apply elem_of_limited in Hin.
    apply elem_of_due in Hin as (topic & Hl & _). rewrite Hempty in Hl.
    now rewrite lookup_empty in Hl.
Qed.

(** X2. Whatever the limit, what [get_due_topics] lists is in ascending order
    of date, names no topic twice, and holds only topics of the schedule
    that are due, with their [next_review]. *)
Theorem get_due_topics_sorted (self : SpacedScheduler) (limit : option Z)
    (now : datetime) :
  StronglySorted by_date (get_due_topics self limit now)
  /\ NoDup (get_due_topics self limit now).*1
  /\ forall topic_id date,
      (topic_id, date) ∈ get_due_topics self limit now ->
      exists topic, schedule self !! topic_id = Some topic
                    /\ next_review topic = date /\ date <= now.
Proof.
  rewrite get_due_topics_limited. repeat apply conj.
  - destruct (limited_take limit (get_due_topics self None now)) as [n ->].
    apply take_sorted. rewrite get_due_topics_unlimited. apply sort_by_date_sorted.
  - apply NoDup_limited. rewrite get_due_topics_unlimited. apply NoDup_selection.
  - intros topic_id date Hin%elem_of_limited. now apply elem_of_due.
Qed.

(** X3. A positive limit [k] keeps the [k] most overdue topics: the list is
    the first [k] entries of the unlimited one (all of them when there are
    fewer), and every due topic it leaves out is due no earlier than each
    one it keeps. *)
Theorem get_due_topics_limit (self : SpacedScheduler) (k : Z) (now : datetime) :
  0 < k ->
  let all := get_due_topics self None now in
  let kept := get_due_topics self (Some k) now in
  kept = take (Z.to_nat k) all
  /\ length kept = Nat.min (Z.to_nat k) (length all)
  /\ forall x y, x ∈ kept -> y ∈ all -> y ∉ kept -> by_date x y.
Proof.
  intros Hk all kept.
  assert (kept = take (Z.to_nat k) all) as Hkept.
  { unfold kept. rewrite get_due_topics_limited. fold all. cbn.
    destruct (k =? 0) eqn:E; [apply Z.eqb_eq in E; lia|].
    unfold slice_to. destruct (k <? 0) eqn:E'; [apply Z.ltb_lt in E'; lia|]. reflexivity. }
  split; [exact Hkept|]. rewrite Hkept. split; [apply length_take|].
  intros x y Hx Hy Hny.
  assert (StronglySorted by_date all) as Hs
      by (unfold all; rewrite get_due_topics_unlimited; apply sort_by_date_sorted).
  rewrite <- (take_drop (Z.to_nat k) all) in Hs, Hy.
  apply elem_of_app in Hy as [Hy|Hy]; [contradiction|].
  eapply StronglySorted_app_1_elem_of; eassumption.
Qed.

(** X4. [get_next_topic] returns [None] exactly when no topic is due, and
    otherwise a due topic whose [next_review] is the earliest of the whole
    schedule. *)
Theorem get_next_topic_most_overdue (self : SpacedScheduler) (now : datetime) :
  match get_next_topic self now with
  | None => forall topic_id topic,
      schedule self !! topic_id = Some topic -> now < next_review topic
  | Some topic_id =>
      exists topic,
        schedule self !! topic_id = Some topic /\ next_review topic <= now
        /\ forall topic_id' topic',
            schedule self !! topic_id' = Some topic' ->
            next_review topic <= next_review topic'
  end.
Proof.
  unfold get_next_topic.
  pose proof (elem_of_due self now) as Hin.
  assert (StronglySorted by_date (get_due_topics self None now)) as Hs
      by (rewrite get_due_topics_unlimited; apply sort_by_date_sorted).
  destruct (get_due_topics self None now) as [|[topic_id date] rest].
  - intros topic_id topic Hl.
    destruct (decide (next_review topic <= now)) as [Hd|Hd]; [|lia].
    assert ((topic_id, next_review topic) ∈ @nil (string * datetime)) as Hc
        by (apply Hin; eauto).
    now apply elem_of_nil in Hc.
  - destruct (proj1 (Hin topic_id date)) as (topic & Hl & Hd & Hle);
      [apply list_elem_of_here|].
    exists topic. subst date. repeat split; try assumption.
    intros topic_id' topic' Hl'.
    destruct (decide (next_review topic' <= now)) as [Hd'|Hd']; [|lia].
    assert ((topic_id', next_review topic') ∈ (topic_id, next_review topic) :: rest)
      as [[= _ ->]|Hr]%elem_of_cons by (apply Hin; eauto); [lia|].
    apply StronglySorted_cons in Hs as [Hall _].
    rewrite Forall_forall in Hall. exact (Hall _ Hr).
Qed.

(** *** Upcoming topics *)

(** X5. [get_upcoming_topics] returns a list when [days] is at most
    999999999 either way and [days] days after [now] is a date of the years
    1 to 9999, and raises [OverflowError] otherwise.  With no limit the list
    holds exactly the topics whose [next_review] is after [now] and at most
    [days] days later; whatever the limit, it is in ascending order of date
    and names no topic twice; with [days] zero or negative it is empty. *)
Theorem get_upcoming_topics_exact (self : SpacedScheduler) (days : Z)
    (now : datetime) :
  (Z.abs days <= 999999999 ->
   0 <= now + days * 86400000000 <= datetime_max ->
   forall limit, exists upcoming,
     get_upcoming_topics self days limit now = Ok upcoming
     /\ StronglySorted by_date upcoming
     /\ NoDup upcoming.*1
     /\ (limit = None ->
         forall topic_id date,
           (topic_id, date) ∈ upcoming
           <-> exists topic, schedule self !! topic_id = Some topic
                             /\ next_review topic = date
                             /\ now < date <= now + days * 86400000000)
     /\ (days <= 0 -> upcoming = []))
  /\ (999999999 < Z.abs days
      \/ now + days * 86400000000 < 0
      \/ datetime_max < now + days * 86400000000 ->
      forall limit, get_upcoming_topics self days limit now = Raise OverflowError).
Proof.
  split.
  - intros Hd Hc limit. rewrite get_upcoming_topics_cutoff.
    destruct (decide _) as [_|Hn]; [|lia].
    eexists. split; [reflexivity|]. rewrite upcoming_until_limited.
    repeat apply conj.
    + destruct (limited_take limit
                  (upcoming_until self (now + days * 86400000000) None now)) as [n ->].
      apply take_sorted. rewrite upcoming_until_unlimited.
      apply sort_by_date_sorted.
    + apply NoDup_limited. rewrite upcoming_until_unlimited.
      apply NoDup_selection.
    + intros ->. apply elem_of_upcoming.
    + intros Hle. apply elem_of_nil_inv. intros [topic_id date] Hin.
      apply elem_of_limited in Hin.
      apply elem_of_upcoming in Hin as (topic & _ & _ & Hw). lia.
  - intros Hout limit. rewrite get_upcoming_topics_cutoff.
    destruct (decide _) as [Hy|_]; [lia|reflexivity].
Qed.

(** X6. For one reading of the clock, no topic is listed both as due and in
    a list [get_upcoming_topics] returns, whatever the limits; and when
    [get_upcoming_topics] returns, with no limit, every topic of the
    schedule is due, or in that list, or has its [next_review] more than
    [days] days after [now]. *)
Theorem due_and_upcoming_partition (self : SpacedScheduler) (days : Z)
    (now : datetime) :
  (forall limit limit' upcoming topic_id,
      get_upcoming_topics self days limit' now = Ok upcoming ->
      topic_id ∈ (get_due_topics self limit now).*1 ->
      topic_id ∉ upcoming.*1)
  /\ (forall upcoming topic_id topic,
         get_upcoming_topics self days None now = Ok upcoming ->
         schedule self !! topic_id = Some topic ->
         (topic_id, next_review topic) ∈ get_due_topics self None now
         \/ (topic_id, next_review topic) ∈ upcoming
         \/ now + days * 86400000000 < next_review topic).
Proof.
  split.
  - intros limit limit' upcoming topic_id Hup Hd Hu.
    rewrite get_upcoming_topics_cutoff in Hup.
    destruct (decide _) as [_|_]; [|discriminate]. injection Hup as <-.
    apply list_elem_of_fmap in Hd as ([id d] & -> & Hd).
    apply list_elem_of_fmap in Hu as ([id' d'] & Heq & Hu). cbn in Heq. subst id'.
    rewrite get_due_topics_limited in Hd. apply elem_of_limited, elem_of_due in Hd.
    rewrite upcoming_until_limited in Hu.
    apply elem_of_limited, elem_of_upcoming in Hu.
    destruct Hd as (t & Hl & <- & Hle), Hu as (t' & Hl' & <- & Hlt).
    assert (t' = t) as -> by congruence. lia.
  - intros upcoming topic_id topic Hup Hl.
    rewrite get_upcoming_topics_cutoff in Hup.
    destruct (decide _) as [_|_]; [|discriminate]. injection Hup as <-.
    destruct (decide (next_review topic <= now)) as [Hd|Hd].
    { left. apply elem_of_due. eauto. }
    destruct (decide (next_review topic <= now + days * 86400000000)) as [Hu|Hu].
    { right. left. apply elem_of_upcoming. exists topic. repeat split; auto. lia. }
    right. right. lia.
Qed.

(** *** The review queue *)

Section Queue.
Context `{PyRuntime}.

Lemma get_stats_known (self : SpacedScheduler) (topic_id : string) (now : datetime) :
  is_Some (schedule self !! topic_id) ->
  exists stats, (get_stats self topic_id now).1 = Some stats
                /\ st_topic_id stats = topic_id.
Proof.
  intros [topic Hl]. unfold get_stats. rewrite Hl. cbn. eauto.
Qed.

Lemma tag_stats_some (self : SpacedScheduler) (p : priority)
    (clock : nat -> datetime) (k : nat) (l : list (string * datetime)) :
  (forall topic_id, topic_id ∈ l.*1 -> is_Some (schedule self !! topic_id)) ->
  exists queue,
    tag_stats self p clock k l = Some queue
    /\ (fun e => st_topic_id (qe_stats e)) <$> queue = l.*1
    /\ qe_priority <$> queue = replicate (length l) p.
Proof.
  revert k. induction l as [|[topic_id date] l IH]; intros k Hin; cbn.
  - exists []. auto.
  - destruct (get_stats_known self topic_id (clock k)) as (stats & -> & Hid);
      [apply Hin; cbn; apply list_elem_of_here|].
    destruct (IH (S k)) as (queue & -> & Hids & Hps);
      [intros id' Hid'; apply Hin; cbn; now apply list_elem_of_further|].
    eexists. split; [reflexivity|]. cbn. now rewrite Hid, Hids, Hps.
Qed.

Lemma due_in_schedule (self : SpacedScheduler) (limit : option Z) (now : datetime)
    (topic_id : string) :
  topic_id ∈ (get_due_topics self limit now).*1 ->
  is_Some (schedule self !! topic_id).
Proof.
  intros ([id d] & -> & Hin)%list_elem_of_fmap.
  rewrite get_due_topics_limited in Hin. apply elem_of_limited, elem_of_due in Hin.
  destruct Hin as (topic & Hl & _). eauto.
Qed.

Lemma upcoming_in_schedule (self : SpacedScheduler) (cutoff : datetime)
    (limit : option Z) (now : datetime) (topic_id : string) :
  topic_id ∈ (upcoming_until self cutoff limit now).*1 ->
  is_Some (schedule self !! topic_id).
Proof.
  intros ([id d] & -> & Hin)%list_elem_of_fmap.
  rewrite upcoming_until_limited in Hin.
  apply elem_of_limited, elem_of_upcoming in Hin.
  destruct Hin as (topic & Hl & _). eauto.
Qed.

Lemma fmap_slice_to {A B} (f : A -> B) (k : Z) (l : list A) :
  f <$> slice_to k l = slice_to k (f <$> l).
Proof. unfold slice_to. rewrite length_fmap. destruct (k <? 0); apply fmap_take. Qed.

Lemma get_review_queue_parts (self : SpacedScheduler) (limit : Z)
    (clock : nat -> datetime) :
  exists queue,
    get_review_queue self limit clock = Some queue
    /\ (fun e => st_topic_id (qe_stats e)) <$> queue
       = slice_to limit ((queue_topics self limit clock).1
                         ++ (queue_topics self limit clock).2)
    /\ qe_priority <$> queue
       = slice_to limit
           (replicate (length (queue_topics self limit clock).1) Overdue
            ++ replicate (length (queue_topics self limit clock).2) Upcoming).
Proof.
  unfold get_review_queue, queue_topics. cbn [fst snd].
  destruct (tag_stats_some self Overdue clock 1 (get_due_topics self None (clock 0%nat)))
    as (queue & -> & Hids & Hps); [apply due_in_schedule|].
  assert (length queue = length (get_due_topics self None (clock 0%nat)).*1) as Hlen
      by (rewrite <- Hids; now rewrite length_fmap).
  rewrite <- Hlen. rewrite length_fmap in Hlen.
  destruct (Z.of_nat (length queue) <? limit) eqn:E.
  - destruct (tag_stats_some self Upcoming clock (S (S (length queue)))
                (upcoming_until self (clock (S (length queue)) + days_us 7)
                   (Some (limit - Z.of_nat (length queue)))
                   (clock (S (length queue)))))
      as (more & -> & Hids' & Hps'); [apply upcoming_in_schedule|].
    eexists. split; [reflexivity|].
    rewrite !fmap_slice_to, !fmap_app, Hids, Hids', Hps, Hps', Hlen, !length_fmap.
    split; reflexivity.
  - eexists. split; [reflexivity|].
    rewrite !fmap_slice_to, Hids, Hps, Hlen, !app_nil_r.
    split; reflexivity.
Qed.


(** X8. When the clock does not run backwards between the two listings, the
    queue names no topic twice. *)
Theorem get_review_queue_no_repeat (self : SpacedScheduler) (limit : Z)
    (clock : nat -> datetime) (queue : list QueueEntry) :
  clock 0%nat <= clock (S (length (get_due_topics self None (clock 0%nat)))) ->
  get_review_queue self limit clock = Some queue ->
  NoDup ((fun e => st_topic_id (qe_stats e)) <$> queue).
Proof.
  intros Hclock Hq.
  destruct (get_review_queue_parts self limit clock) as (queue' & Hq' & Hids & _).
  assert (queue' = queue) as -> by congruence. rewrite Hids.
  destruct (slice_to_take limit ((queue_topics self limit clock).1
                                 ++ (queue_topics self limit clock).2)) as [n ->].
  eapply sublist_NoDup; [|apply sublist_take].
  unfold queue_topics. cbn [fst snd]. rewrite length_fmap.
  apply NoDup_app. repeat split.
  - rewrite get_due_topics_unlimited. apply NoDup_selection.
  - intros topic_id Hd Hu.
    destruct (Z.of_nat _ <? limit); [|now apply elem_of_nil in Hu].
    apply list_elem_of_fmap in Hd as ([id d] & -> & Hd).
    apply list_elem_of_fmap in Hu as ([id' d'] & Heq & Hu). cbn in Heq. subst id'.
    apply elem_of_due in Hd as (t & Hl & <- & Hle).
    rewrite upcoming_until_limited in Hu.
    apply elem_of_limited, elem_of_upcoming in Hu as (t' & Hl' & <- & Hlt & _).
    assert (t' = t) as -> by congruence. lia.
  - destruct (Z.of_nat _ <? limit); [|constructor].
    rewrite upcoming_until_limited. apply NoDup_limited.
    rewrite upcoming_until_unlimited. apply NoDup_selection.
Qed.


End Queue.

End Queries.

Lemma get_due_topics_limit_witness :
  get_due_topics (order := canonical_order) three_topics (Some 2) 1000000000000
  = [("tlb"%string, 86400000010); ("mutex"%string, 86400000020)].
Proof.
  destruct (get_due_topics_limit (H := canonical_order) three_topics 2 1000000000000)
    as [Hkept _]; [reflexivity|].
  rewrite Hkept. reflexivity.
Defined.

Lemma get_upcoming_topics_exact_witness :
  (exists upcoming,
      get_upcoming_topics (order := canonical_order) three_topics 7 (Some 2) 15
      = Ok upcoming
      /\ StronglySorted by_date upcoming /\ NoDup upcoming.*1)
  /\ get_upcoming_topics (order := canonical_order) three_topics 3000000 None year_2026
     = Raise OverflowError
  /\ get_upcoming_topics (order := canonical_order) three_topics (-1000000) None
       year_2026
     = Raise OverflowError.
Proof.
  pose proof (get_upcoming_topics_exact (H := canonical_order) three_topics 7 15)
    as [Hin _].
  pose proof (get_upcoming_topics_exact (H := canonical_order) three_topics 3000000
                year_2026) as [_ Hhi].
  pose proof (get_upcoming_topics_exact (H := canonical_order) three_topics (-1000000)
                year_2026) as [_ Hlo].
  split; [|split].
  - destruct (Hin ltac:(vm_compute; discriminate)
                  ltac:(split; vm_compute; discriminate) (Some 2))
      as (upcoming & Hup & Hs & Hn & _).
    exists upcoming. auto.
  - apply Hhi. right. right. reflexivity.
  - apply Hlo. right. left. reflexivity.
Defined.

Lemma due_and_upcoming_partition_witness :
  exists upcoming,
    get_upcoming_topics (order := canonical_order) three_topics 7 None 86400000015
    = Ok upcoming
    /\ "tlb" ∈ (get_due_topics (order := canonical_order) three_topics None
                  86400000015).*1
    /\ "tlb" ∉ upcoming.*1.
Proof.
  eexists. split; [vm_compute; reflexivity|].
  assert ("tlb" ∈ (get_due_topics (order := canonical_order) three_topics None
                      86400000015).*1) as Hd
      by (vm_compute; apply list_elem_of_here).
  split; [exact Hd|].
  apply (proj1 (due_and_upcoming_partition (H := canonical_order) three_topics 7
                  86400000015) None None _ "tlb"); [|exact Hd].
  vm_compute. reflexivity.
Defined.

Lemma get_review_queue_no_repeat_witness :
  match get_review_queue (H := example_runtime) (order := canonical_order)
          three_topics 10 (fun _ => 86400000015) with
  | Some queue => NoDup ((fun e => st_topic_id (qe_stats e)) <$> queue)
  | None => True
  end.
Proof.
  destruct (get_review_queue three_topics 10 (fun _ => 86400000015)) as [queue|] eqn:E;
    [|exact I].
  apply (get_review_queue_no_repeat (H := canonical_order) (H0 := example_runtime)
           three_topics 10 (fun _ => 86400000015) queue); [|exact E].
  cbn. discriminate.
Defined.


End spaced_scheduler_queries_spec.

(** ** What a scheduler keeps true over its life *)

Module spaced_scheduler_life_spec.

Import spaced_scheduler PyNumFacts spaced_scheduler_spec.
Local Open Scope Z_scope.

Lemma last_last_n {A} (n : nat) (l : list A) :
  (0 < n)%nat -> last (last_n n l) = last l.
Proof.
  intros Hn. destruct l as [|y l']; [reflexivity|].
  unfold last_n. rewrite !last_lookup, length_drop, lookup_drop. f_equal.
  cbn [length]. lia.
Qed.

Lemma default_topic_countable (created : datetime) :
  countable_record (default_topic created).
Proof. repeat split; cbn; try lia. constructor. Qed.

Lemma reviewed_record_countable (topic : TopicData) :
  reviewed_record topic -> countable_record topic.
Proof. intros [? ? ? ? ? ?]. repeat split; try assumption; lia. Qed.

Section Methods.
Context `{PyRuntime}.

Lemma reviewed_is_reviewed_record (topic : TopicData) (q : Z) (now : datetime)
    (noise : float) :
  valid_quality q -> countable_record topic ->
  reviewed_record (reviewed topic q now noise).
Proof.
  intros Hq (Hrep & Hlen & Hall).
  pose proof (reviewed_total topic q now noise) as Ht.
  pose proof (reviewed_history topic q now noise) as Hh.
  split.
  - unfold reviewed. destruct (new_interval _ _ _) as [reps nominal]. cbn.
    now apply py_max_lower.
  - lia.
  - rewrite Ht. unfold reviewed, new_interval.
    destruct (q <? 3); cbn; lia.
  - rewrite Ht, Hh, length_last_n, length_app. cbn [length]. lia.
  - rewrite Hh. unfold last_n. apply Forall_drop, Forall_app. split; [exact Hall|].
    repeat constructor; apply Hq.
  - rewrite Hh, last_last_n, last_snoc by lia.
    unfold reviewed. now destruct (new_interval _ _ _) as [reps nominal].
Qed.

Lemma get_topic_data_countable (self : SpacedScheduler) (topic_id : string)
    (created : datetime) :
  all_reviewed self -> countable_record (_get_topic_data self topic_id created).1.
Proof.
  intros Hall. unfold _get_topic_data.
  destruct (schedule self !! topic_id) as [topic|] eqn:E; cbn.
  - apply reviewed_record_countable. now apply (Hall topic_id).
  - apply default_topic_countable.
Qed.

Lemma step_all_reviewed (self : SpacedScheduler) (c : call) :
  all_reviewed self -> all_reviewed (step self c).
Proof.
  intros Hall id topic. destruct c as [id' q created now noise|id' now|id'].
  - rewrite step_lookup by discriminate.
    destruct (decide _) as [[-> Hq]|_]; [|apply Hall]. intros [= <-].
    apply reviewed_is_reviewed_record; [exact Hq|].
    now apply get_topic_data_countable.
  - rewrite step_lookup by discriminate. apply Hall.
  - cbn. destruct (decide (id = id')) as [->|Hne].
    + now rewrite reset_topic_lookup.
    + rewrite reset_topic_lookup_ne by assumption. apply Hall.
Qed.

Lemma stops_at_date_review (self : SpacedScheduler) (topic_id : string)
    (quality : Z) (created now : datetime) (noise : float) :
  valid_quality quality ->
  stops_at_date self (Review topic_id quality created now noise)
  = match next_review_date now
            (interval (reviewed (_get_topic_data self topic_id created).1
                         quality now noise)) with
    | Raise _ => true
    | Ok _ => false
    end.
Proof.
  intros Hq. pose proof (review_ends self topic_id quality created now noise Hq) as He.
  cbn zeta in He. destruct Hq as [Hlo Hhi]. apply Z.leb_le in Hlo, Hhi.
  cbn [stops_at_date]. rewrite Hlo, Hhi. cbn [andb].
  destruct (next_review_date now _) as [date|e].
  - destruct He as [(result & -> & _) _]. reflexivity.
  - destruct He as [-> _]. reflexivity.
Qed.

Lemma stops_at_date_invalid (self : SpacedScheduler) (topic_id : string)
    (quality : Z) (created now : datetime) (noise : float) :
  ~ valid_quality quality ->
  stops_at_date self (Review topic_id quality created now noise) = false.
Proof.
  intros Hq. cbn [stops_at_date].
  destruct (0 <=? quality)%Z eqn:Hlo; [|reflexivity].
  destruct (quality <=? 5)%Z eqn:Hhi; [|reflexivity].
  apply Z.leb_le in Hlo, Hhi. exfalso. apply Hq. split; assumption.
Qed.

Lemma step_in_sync (self : SpacedScheduler) (c : call) :
  stops_at_date self c = false -> in_sync self -> in_sync (step self c).
Proof.
  intros Hc Hs. destruct c as [id q created now noise|id now|id]; cbn [step].
  - destruct (decide (valid_quality q)) as [Hq|Hq].
    + rewrite stops_at_date_review in Hc by assumption.
      pose proof (review_ends self id q created now noise Hq) as He. cbn zeta in He.
      destruct (next_review_date now _) as [date|e]; [|discriminate].
      destruct He as [_ Hf]. unfold in_sync. now rewrite Hf.
    + now rewrite review_invalid.
  - now rewrite get_stats_unchanged.
  - unfold reset_topic. now destruct (schedule self !! id).
Qed.

Lemma step_out_of_sync (self : SpacedScheduler) (c : call) :
  stops_at_date self c = true -> in_sync self ->
  schedule_file (step self c) = schedule_file self /\ ~ in_sync (step self c).
Proof.
  intros Hc Hs. destruct c as [id q created now noise|id now|id]; try discriminate.
  cbn [step]. destruct (decide (valid_quality q)) as [Hq|Hq];
    [|now rewrite stops_at_date_invalid in Hc].
  rewrite stops_at_date_review in Hc by assumption.
  pose proof (review_ends self id q created now noise Hq) as He. cbn zeta in He.
  destruct (next_review_date now _) as [date|e]; [discriminate|].
  destruct He as [_ Hf]. split; [exact Hf|].
  unfold in_sync. rewrite Hf, Hs. intros Heq.
  pose proof (review_lookup self id q created now noise Hq) as Hl.
  rewrite <- Heq, get_topic_data_fst in Hl.
  destruct (schedule self !! id) as [topic|]; [|discriminate].
  cbn in Hl. injection Hl as Hl.
  pose proof (reviewed_total topic q now noise) as Ht. rewrite <- Hl in Ht. lia.
Qed.

(** X10. After any calls on a scheduler that started without a file, every
    record of the schedule has been through a review: its ease factor is at
    least 1.3, its [total_reviews] is at least 1, its [repetitions] lies
    between 0 and [total_reviews], its history holds [min(20, total_reviews)]
    records whose qualities are all in [[0, 5]], and [last_review] is the
    timestamp of the newest record of the history.  The calls keep all this
    true of any schedule that has it. *)
Theorem records_stay_reviewed :
  (forall calls : list call, all_reviewed (run fresh calls))
  /\ (forall (self : SpacedScheduler) (calls : list call),
         all_reviewed self -> all_reviewed (run self calls)).
Proof.
  assert (forall (calls : list call) (self : SpacedScheduler),
             all_reviewed self -> all_reviewed (run self calls)) as Hrun.
  { induction calls as [|c calls IH]; intros self Hall; [exact Hall|].
    cbn. apply IH. now apply step_all_reviewed. }
  split.
  - intros calls. apply Hrun. intros id topic. cbn. now rewrite lookup_empty.
  - intros self calls. apply Hrun.
Qed.

(** X11. The file holds the schedule as long as no review ended at line 158:
    whatever file a scheduler was created from, after calls none of which
    is a validated review whose next review date could not be computed, a
    scheduler created from the file left behind has the same schedule.
    Such a review, on a scheduler whose file held its schedule, leaves the
    file as it was and the schedule in memory different from it. *)
Theorem schedule_file_in_sync (file : option (gmap string TopicData))
    (calls : list call) :
  (dates_fit (init file) calls = true ->
   schedule (init (schedule_file (run (init file) calls)))
   = schedule (run (init file) calls))
  /\ (forall (self : SpacedScheduler) (c : call),
         schedule (init (schedule_file self)) = schedule self ->
         stops_at_date self c = true ->
         schedule_file (step self c) = schedule_file self
         /\ schedule (init (schedule_file (step self c))) <> schedule (step self c)).
Proof.
  split.
  - assert (forall (cs : list call) (self : SpacedScheduler),
               dates_fit self cs = true -> in_sync self -> in_sync (run self cs)) as Hrun.
    { induction cs as [|c cs IH]; intros self Hd Hs; [exact Hs|].
      cbn [dates_fit] in Hd. apply andb_true_iff in Hd as [Hc Hd].
      apply negb_true_iff in Hc. cbn. apply IH; [exact Hd|].
      now apply step_in_sync. }
    intros Hd. apply (Hrun calls (init file) Hd). reflexivity.
  - intros self c Hs Hc. now apply step_out_of_sync.
Qed.

(** X12. [get_stats] right after a validated review of a topic reports the
    record the review left: [last_review] is the time of the review, its
    quality is the last of the recent qualities, the review count is one
    more than it was, and [get_stats] leaves the scheduler as the review
    left it.  When the review returned, what it reported is what
    [get_stats] reports: the same ease factor, interval, next review,
    repetitions and review count. *)
Theorem get_stats_after_review (self : SpacedScheduler) (topic_id : string)
    (quality : Z) (created now later : datetime) (noise : float) :
  valid_quality quality ->
  let outcome := (review self topic_id quality created now noise).1 in
  let after := (review self topic_id quality created now noise).2 in
  exists stats : Stats,
    get_stats after topic_id later = (Some stats, after)
    /\ st_last_review stats = Some now
    /\ last (st_recent_quality stats) = Some quality
    /\ st_total_reviews stats = total_of self topic_id + 1
    /\ (forall result : ReviewResult,
           outcome = Ok result ->
           st_ease_factor stats = rr_ease_factor result
           /\ st_current_interval_days stats = rr_interval_days result
           /\ st_next_review stats = rr_next_review result
           /\ st_repetitions stats = rr_repetitions result
           /\ st_total_reviews stats = rr_total_reviews result).
Proof.
  intros Hq outcome after.
  pose proof (review_lookup self topic_id quality created now noise Hq) as Hl.
  pose proof (review_ends self topic_id quality created now noise Hq) as He.
  cbn zeta in He. fold outcome in He. fold after in Hl.
  unfold get_stats. rewrite Hl. eexists. split; [reflexivity|]. cbn.
  repeat apply conj.
  - unfold reviewed. now destruct (new_interval _ _ _).
  - rewrite fmap_last, reviewed_history.
    now rewrite !last_last_n, last_snoc by lia.
  - rewrite reviewed_total, get_topic_data_fst. unfold total_of, observed_total_reviews.
    now destruct (schedule self !! topic_id).
  - intros result Hr. destruct (next_review_date now _) as [date|e].
    + destruct He as [(result' & Hr' & Hease & Hi & Hn & Hp & Ht) _].
      rewrite Hr in Hr'. injection Hr' as <-.
      now rewrite Hease, Hi, Hn, Hp, Ht.
    + destruct He as [He _]. rewrite Hr in He. discriminate.
Qed.

(** X13. [reset_topic] removes the record of its topic and nothing else: the
    topic then has no statistics, every other topic keeps its record, the
    file holds the schedule without the topic; on a topic without a record
    it changes nothing, not even the file; and a second reset changes
    nothing. *)
Theorem reset_topic_forgets (self : SpacedScheduler) (topic_id : string) :
  (forall now, get_stats (reset_topic self topic_id) topic_id now
               = (None, reset_topic self topic_id))
  /\ (forall other, other <> topic_id ->
                    schedule (reset_topic self topic_id) !! other
                    = schedule self !! other)
  /\ (is_Some (schedule self !! topic_id) ->
      schedule_file (reset_topic self topic_id)
      = Some (delete topic_id (schedule self)))
  /\ (schedule self !! topic_id = None -> reset_topic self topic_id = self)
  /\ reset_topic (reset_topic self topic_id) topic_id = reset_topic self topic_id.
Proof.
  repeat apply conj.
  - intros now. unfold get_stats. now rewrite reset_topic_lookup.
  - intros other Hne. now apply reset_topic_lookup_ne.
  - intros [topic Hl]. unfold reset_topic. now rewrite Hl.
  - intros Hl. unfold reset_topic. now rewrite Hl.
  - unfold reset_topic at 1. now rewrite reset_topic_lookup.
Qed.

(** X14. A review touches the record of its topic only: every other topic keeps
    its record, whether the review passes validation or not; and after a
    reset a review stores what it stores for a topic never seen, whatever
    the record was before the reset. *)
Theorem review_touches_one_topic (self : SpacedScheduler) (topic_id : string)
    (quality : Z) (created now : datetime) (noise : float) :
  (forall other, other <> topic_id ->
                 schedule (review self topic_id quality created now noise).2 !! other
                 = schedule self !! other)
  /\ (valid_quality quality ->
      schedule (review (reset_topic self topic_id) topic_id quality created now noise).2
        !! topic_id
      = Some (reviewed (default_topic created) quality now noise)).
Proof.
  split.
  - intros other Hne. now apply review_lookup_ne.
  - intros Hq. rewrite review_lookup by assumption.
    unfold _get_topic_data. now rewrite reset_topic_lookup.
Qed.

Lemma step_repetitions (self : SpacedScheduler) (topic_id : string) (c : call) :
  c <> ResetTopic topic_id ->
  repetitions_of (step self c) topic_id
  = match recorded topic_id c with
    | Some r => if quality r <? 3 then 0 else repetitions_of self topic_id + 1
    | None => repetitions_of self topic_id
    end.
Proof.
  intros Hc. unfold repetitions_of at 1. rewrite step_lookup by assumption.
  destruct c as [id q created now noise|id now|id]; cbn [recorded]; try reflexivity.
  destruct (decide _); [|reflexivity]. cbn.
  assert (repetitions (_get_topic_data self topic_id created).1
          = repetitions_of self topic_id) as Hrep.
  { unfold _get_topic_data, repetitions_of.
    now destruct (schedule self !! topic_id). }
  unfold reviewed, new_interval. rewrite Hrep. now destruct (q <? 3).
Qed.

(** X15. [repetitions] is the length of the current run of successes: for a
    topic that had no record, after any calls that do not reset it, it is
    the number of reviews with a quality of 3 or more that came after the
    topic's last review with a lower quality (validated reviews only). *)
Theorem repetitions_count_streak (self : SpacedScheduler) (topic_id : string)
    (calls : list call) :
  schedule self !! topic_id = None ->
  ResetTopic topic_id ∉ calls ->
  repetitions_of (run self calls) topic_id
  = Z.of_nat (trailing_successes (omap (recorded topic_id) calls)).
Proof.
  intros Hnone. induction calls as [|c calls IH] using rev_ind; intros Hno.
  - unfold repetitions_of. cbn. now rewrite Hnone.
  - apply not_elem_of_app in Hno as [Hno Hc]. apply not_elem_of_cons in Hc as [Hc _].
    unfold run in *. rewrite foldl_app. cbn [foldl].
    rewrite step_repetitions by congruence. rewrite (IH Hno), omap_app.
    cbn [omap list_omap]. unfold trailing_successes.
    destruct (recorded topic_id c) as [r|]; cbn [option_list].
    + rewrite reverse_snoc. cbn [leading_successes].
      destruct (quality r <? 3) eqn:E.
      * apply Z.ltb_lt in E. destruct (3 <=? quality r) eqn:E'; [|reflexivity].
        apply Z.leb_le in E'. lia.
      * apply Z.ltb_ge in E. destruct (3 <=? quality r) eqn:E'; [lia|].
        apply Z.leb_gt in E'. lia.
    + now rewrite app_nil_r.
Qed.

End Methods.

Lemma schedule_file_in_sync_witness :
  schedule (init (schedule_file (run (H := example_runtime) (init None) reviews_21)))
  = schedule (run (H := example_runtime) (init None) reviews_21)
  /\ schedule_file (step (H := example_runtime) (perfect 13)
                      (Review "paging" 5 year_2026 year_2026 0))
     = schedule_file (perfect 13).
Proof.
  split.
  - apply (proj1 (schedule_file_in_sync (H := example_runtime) None reviews_21)).
    vm_compute. reflexivity.
  - apply (proj2 (schedule_file_in_sync (H := example_runtime) None [])
             (perfect 13) (Review "paging" 5 year_2026 year_2026 0)).
    + vm_compute. reflexivity.
    + vm_compute. reflexivity.
Defined.

Lemma get_stats_after_review_witness :
  exists (result : ReviewResult) (stats : Stats),
    (review (H := example_runtime) fresh "paging" 4 0 7 0).1 = Ok result
    /\ (get_stats (H := example_runtime)
          (review (H := example_runtime) fresh "paging" 4 0 7 0).2 "paging" 9).1
       = Some stats
    /\ st_total_reviews stats = rr_total_reviews result
    /\ st_last_review stats = Some 7.
Proof.
  destruct (get_stats_after_review (H := example_runtime) fresh "paging" 4 0 7 9 0)
    as (stats & Hs & Hl & _ & _ & Hr); [split; discriminate|].
  eexists. exists stats. split; [vm_compute; reflexivity|].
  rewrite Hs. split; [reflexivity|]. split; [|exact Hl].
  now apply Hr.
Defined.

Lemma repetitions_count_streak_witness :
  repetitions_of (run (H := example_runtime) fresh reviews_21) "paging" = 1.
Proof.
  rewrite (repetitions_count_streak (H := example_runtime) fresh "paging" reviews_21
             eq_refl reviews_21_no_reset).
  reflexivity.
Defined.

End spaced_scheduler_life_spec.

(** ** What the tracker keeps true over its life *)

Module knowledge_tracker_life_spec.

Import knowledge_tracker PyNumFacts knowledge_tracker_spec read_operations_spec.
Local Open Scope Z_scope.

(** *** The dictionary *)

Lemma dict_get_set_ne {V} (d : dict V) (k k' : string) (v : V) :
  k' <> k -> dict_get (dict_set d k v) k' = dict_get d k'.
Proof.
  intros Hne. induction d as [|[k0 v0] d IH]; cbn.
  - destruct (String.eqb k' k) eqn:E; [apply String.eqb_eq in E; contradiction|].
    reflexivity.
  - destruct (String.eqb k k0) eqn:E; cbn.
    + apply String.eqb_eq in E. subst k0.
      destruct (String.eqb k' k) eqn:E'; [apply String.eqb_eq in E'; contradiction|].
      reflexivity.
    + destruct (String.eqb k' k0); [reflexivity | exact IH].
Qed.

Lemma dict_set_keys {V} (d : dict V) (k : string) (v : V) :
  (dict_set d k v).*1
  = match dict_get d k with Some _ => d.*1 | None => d.*1 ++ [k] end.
Proof.
  induction d as [|[k0 v0] d IH]; cbn; [reflexivity|].
  destruct (String.eqb k k0) eqn:E; cbn; [reflexivity|].
  rewrite IH. now destruct (dict_get d k).
Qed.

(** On numbers, [x < y] is the negation of [y <= x]. *)
Lemma ltb_negb_leb (x y : float) :
  is_number x -> is_number y -> (x <? y)%float = negb (y <=? x)%float.
Proof.
  intros Hx%is_number_spec Hy%is_number_spec.
  rewrite FloatAxioms.ltb_spec, FloatAxioms.leb_spec. unfold SFltb, SFleb.
  pose proof (rank_compare _ _ Hx Hy) as R. pose proof (rank_compare _ _ Hy Hx) as R'.
  destruct (SFcompare (Prim2SF x) (Prim2SF y)) as [[]|],
           (SFcompare (Prim2SF y) (Prim2SF x)) as [[]|];
    try reflexivity; try contradiction; exfalso;
    try (rewrite R in R'; now apply lt3_irrefl in R');
    try (rewrite R' in R; now apply lt3_irrefl in R);
    unfold lt3 in *; lia.
Qed.

(** *** One update *)

Lemma get_topic_state_fst (file : progress_file) (topic : string) :
  (get_topic_state (load_progress file) topic).1 = state_of file topic.
Proof.
  unfold get_topic_state, state_of, stored_state.
  now destruct (dict_get (default [] (load_progress file)) topic).
Qed.

Lemma get_topic_state_get (file : progress_file) (topic other : string) :
  dict_get (default [] (get_topic_state (load_progress file) topic).2) other
  = if String.eqb other topic then Some (state_of file topic)
    else stored_state file other.
Proof.
  unfold get_topic_state, state_of, stored_state.
  destruct (dict_get (default [] (load_progress file)) topic) as [st|] eqn:E; cbn.
  - destruct (String.eqb other topic) eqn:E'; [|reflexivity].
    apply String.eqb_eq in E'. subst other. now rewrite E.
  - destruct (String.eqb other topic) eqn:E'.
    + apply String.eqb_eq in E'. subst other. apply dict_get_set.
    + apply dict_get_set_ne. intros ->. now rewrite String.eqb_refl in E'.
Qed.

Section Calls.
Context `{PyRuntime}.

Lemma int_truediv_None (a b : Z) : int_truediv a b = None -> b = 0.
Proof.
  unfold int_truediv. destruct (b =? 0) eqn:E; [|discriminate].
  intros _. now apply Z.eqb_eq.
Qed.

Lemma update_topic_file (file : progress_file) (topic : string) (is_correct : bool) :
  (update_topic file topic is_correct).2
  = Some (Some (dict_set (default [] (get_topic_state (load_progress file) topic).2)
                  topic (updated_state (state_of file topic) is_correct))).
Proof.
  unfold update_topic. rewrite <- get_topic_state_fst.
  destruct (get_topic_state (load_progress file) topic) as [state p]. cbn [fst snd].
  unfold updated_state.
  destruct (int_truediv _ (attempts state + 1)); reflexivity.
Qed.

Lemma update_topic_stored (file : progress_file) (topic other : string)
    (is_correct : bool) :
  stored_state (update_topic file topic is_correct).2 other
  = if String.eqb other topic
    then Some (updated_state (state_of file topic) is_correct)
    else stored_state file other.
Proof.
  rewrite update_topic_file.
  change (stored_state (Some (Some ?d)) other) with (dict_get d other).
  destruct (String.eqb other topic) eqn:E.
  - apply String.eqb_eq in E. subst other. apply dict_get_set.
  - rewrite dict_get_set_ne by (intros ->; now rewrite String.eqb_refl in E).
    rewrite get_topic_state_get. now rewrite E.
Qed.

Lemma updated_state_well_formed (state : TopicState) (is_correct : bool) :
  well_formed state -> well_formed (updated_state state is_correct).
Proof.
  intros [_ Hc Hd]. split; cbn.
  - unfold update_mastery. apply clamp_bounds; reflexivity.
  - destruct is_correct; lia.
  - destruct (3 <=? attempts state + 1); [|exact Hd].
    destruct (int_truediv _ _) as [rate|]; [|exact Hd].
    destruct ((0.8 <? rate)%float && (difficulty state <? 5)) eqn:E1.
    { apply andb_true_iff in E1 as [_ ?%Z.ltb_lt]. lia. }
    destruct ((rate <? 0.5)%float && (1 <? difficulty state)) eqn:E2; [|exact Hd].
    apply andb_true_iff in E2 as [_ ?%Z.ltb_lt]. lia.
Qed.

Lemma default_state_well_formed : well_formed default_state.
Proof. split; cbn; try lia. split; reflexivity. Qed.

Lemma state_of_well_formed (file : progress_file) (topic : string) :
  all_well_formed file -> well_formed (state_of file topic).
Proof.
  intros Hall. unfold state_of.
  destruct (stored_state file topic) as [st|] eqn:E; cbn.
  - now apply (Hall topic).
  - apply default_state_well_formed.
Qed.

(** X16. [update_topic] stores, for its topic, the state it found (the default
    one for a new topic) with [p_known] replaced by [update_mastery] of it,
    [attempts] one more, [correct] one more exactly when the answer was
    correct, and a difficulty that moved by at most one step and not at all
    before the third attempt; every other topic keeps its state. *)
Theorem update_topic_stores (file : progress_file) (topic : string)
    (is_correct : bool) :
  let before := state_of file topic in
  let after := (update_topic file topic is_correct).2 in
  (exists state,
      stored_state after topic = Some state
      /\ p_known state = update_mastery (p_known before) is_correct
      /\ attempts state = attempts before + 1
      /\ correct state = correct before + (if is_correct then 1 else 0)
      /\ difficulty before - 1 <= difficulty state <= difficulty before + 1
      /\ (attempts state < 3 -> difficulty state = difficulty before))
  /\ forall other, other <> topic -> stored_state after other = stored_state file other.
Proof.
  intros before after. split.
  - exists (updated_state before is_correct). split.
    + unfold after. rewrite update_topic_stored. now rewrite String.eqb_refl.
    + cbn. repeat split; try (destruct is_correct; lia).
      * destruct (3 <=? attempts before + 1); [|lia].
        destruct (int_truediv _ _) as [rate|]; [|lia].
        destruct ((0.8 <? rate)%float && _); [lia|].
        destruct ((rate <? 0.5)%float && _); lia.
      * destruct (3 <=? attempts before + 1); [|lia].
        destruct (int_truediv _ _) as [rate|]; [|lia].
        destruct ((0.8 <? rate)%float && _); [lia|].
        destruct ((rate <? 0.5)%float && _); lia.
      * intros Hlt. destruct (3 <=? attempts before + 1) eqn:E; [|reflexivity].
        apply Z.leb_le in E. lia.
  - intros other Hne. unfold after. rewrite update_topic_stored.
    destruct (String.eqb other topic) eqn:E; [|reflexivity].
    apply String.eqb_eq in E. contradiction.
Qed.

(** *** Sequences of calls *)

Lemma get_topic_mastery_stored (file : progress_file) (topic other : string) :
  stored_state (get_topic_mastery file topic).2 other
  = if String.eqb other topic then Some (state_of file topic)
    else stored_state file other.
Proof.
  unfold get_topic_mastery.
  pose proof (get_topic_state_get file topic other) as Hg.
  destruct (get_topic_state (load_progress file) topic) as [state p]. exact Hg.
Qed.

Lemma suggest_topic_file (file : progress_file) : (suggest_topic file).2 = file.
Proof.
  unfold suggest_topic.
  now destruct (sort_candidates _) as [|[[topic mastery] attempts] rest].
Qed.

Lemma tracker_step_read (file : progress_file) (c : tracker_call) :
  c = Status \/ c = Suggest -> tracker_step file c = file.
Proof. intros [-> | ->]; cbn; [reflexivity | apply suggest_topic_file]. Qed.

Lemma tracker_step_all_well_formed (file : progress_file) (c : tracker_call) :
  all_well_formed file -> all_well_formed (tracker_step file c).
Proof.
  intros Hall topic state.
  destruct c as [t b|t| |]; [| |rewrite tracker_step_read by auto; apply Hall..]; cbn.
  - rewrite update_topic_stored. destruct (String.eqb topic t); [|apply Hall].
    intros [= <-]. now apply updated_state_well_formed, state_of_well_formed.
  - rewrite get_topic_mastery_stored. destruct (String.eqb topic t); [|apply Hall].
    intros [= <-]. now apply state_of_well_formed.
Qed.

(** X17. Starting without a file, after any updates and reads every stored
    state has a [p_known] in [[0.01, 0.99]], at most as many correct answers
    as attempts, none negative, and a difficulty from 1 to 5; and the calls
    keep this true of any file that has it. *)
Theorem states_stay_well_formed :
  (forall calls : list tracker_call, all_well_formed (tracker_run None calls))
  /\ (forall (file : progress_file) (calls : list tracker_call),
         all_well_formed file -> all_well_formed (tracker_run file calls)).
Proof.
  assert (forall (calls : list tracker_call) (file : progress_file),
             all_well_formed file -> all_well_formed (tracker_run file calls)) as Hrun.
  { induction calls as [|c calls IH]; intros file Hall; [exact Hall|].
    cbn. apply IH. now apply tracker_step_all_well_formed. }
  split.
  - intros calls. apply Hrun. intros topic state. discriminate.
  - intros file calls. apply Hrun.
Qed.

Lemma dict_get_keys {V} (d : dict V) (k : string) :
  is_Some (dict_get d k) <-> k ∈ d.*1.
Proof.
  induction d as [|[k0 v0] d IH]; cbn.
  - rewrite elem_of_nil. split; [intros [? [=]] | tauto].
  - rewrite elem_of_cons. destruct (String.eqb k k0) eqn:E.
    + apply String.eqb_eq in E. split; eauto.
    + rewrite IH. split; [tauto|]. intros [->|?]; [|assumption].
      now rewrite String.eqb_refl in E.
Qed.

Lemma get_topic_state_keys (file : progress_file) (topic : string) :
  (default [] (get_topic_state (load_progress file) topic).2).*1
  = match stored_state file topic with
    | Some _ => stored_topics file
    | None => stored_topics file ++ [topic]
    end.
Proof.
  unfold get_topic_state, stored_state, stored_topics.
  destruct (dict_get (default [] (load_progress file)) topic) eqn:E; cbn; [reflexivity|].
  now rewrite dict_set_keys, E.
Qed.

Lemma tracker_step_topics (file : progress_file) (c : tracker_call) :
  stored_topics (tracker_step file c)
  = match c with
    | Update topic _ | Get topic =>
        match stored_state file topic with
        | Some _ => stored_topics file
        | None => stored_topics file ++ [topic]
        end
    | _ => stored_topics file
    end.
Proof.
  destruct c as [t b|t| |]; [| |now rewrite tracker_step_read by auto..]; cbn.
  - rewrite update_topic_file. unfold stored_topics at 1. cbn.
    rewrite dict_set_keys, get_topic_state_get, String.eqb_refl.
    apply get_topic_state_keys.
  - unfold get_topic_mastery.
    pose proof (get_topic_state_keys file t) as Hk.
    destruct (get_topic_state (load_progress file) t) as [state p]. exact Hk.
Qed.

(** X18. Topics are never removed or reordered: after any calls the topics of
    the file are those it had, in the same order, followed by the new ones
    in the order they were first updated or read; no topic appears twice if
    none did; and every topic updated or read has a state. *)
Theorem topics_only_grow (file : progress_file) (calls : list tracker_call) :
  stored_topics file `prefix_of` stored_topics (tracker_run file calls)
  /\ (NoDup (stored_topics file) -> NoDup (stored_topics (tracker_run file calls)))
  /\ (forall topic,
         (exists b, Update topic b ∈ calls) \/ Get topic ∈ calls ->
         is_Some (stored_state (tracker_run file calls) topic)).
Proof.
  revert file. induction calls as [|c calls IH]; intros file.
  - cbn. split; [reflexivity|]. split; [auto|].
    intros topic [[b Hb]|Hg]; [now apply elem_of_nil in Hb | now apply elem_of_nil in Hg].
  - change (tracker_run file (c :: calls)) with (tracker_run (tracker_step file c) calls).
    destruct (IH (tracker_step file c)) as (Hpre & Hnd & Hin).
    pose proof (tracker_step_topics file c) as Hstep.
    assert (forall topic, is_Some (stored_state (tracker_step file c) topic) ->
                          is_Some (stored_state (tracker_run (tracker_step file c) calls) topic))
      as Hkeep.
    { intros topic Hs. apply dict_get_keys. apply dict_get_keys in Hs.
      destruct Hpre as [k Hk]. fold (stored_topics (tracker_step file c)) in Hs.
      unfold stored_topics in Hk. rewrite Hk. apply elem_of_app. now left. }
    repeat split.
    + etransitivity; [|exact Hpre]. rewrite Hstep.
      destruct c as [t b|t| |]; try reflexivity;
        destruct (stored_state file t); try reflexivity; now apply prefix_app_r.
    + intros Hn. apply Hnd. rewrite Hstep.
      destruct c as [t b|t| |]; try exact Hn;
        (destruct (stored_state file t) eqn:E; [exact Hn|]);
        (apply NoDup_app; repeat split; [exact Hn| |apply NoDup_singleton]);
        intros x Hx ->%list_elem_of_singleton;
        apply dict_get_keys in Hx; unfold stored_state in E; rewrite E in Hx;
        now destruct Hx.
    + intros topic [[b [Heq|Hb]%elem_of_cons]|[Heq|Hg]%elem_of_cons].
      * subst c. apply Hkeep. cbn. rewrite update_topic_stored, String.eqb_refl. eauto.
      * apply Hin. eauto.
      * subst c. apply Hkeep. cbn. rewrite get_topic_mastery_stored, String.eqb_refl. eauto.
      * apply Hin. eauto.
Qed.

(** *** What an update returns *)

(** X19. [update_topic] returns a result unless the stored [attempts] is -1,
    which no sequence of updates produces; then the division for the
    success rate fails, after the file has been written with the update.
    The result carries the new number of attempts, the stored difficulty and
    whether the new mastery reaches 0.95. *)
Theorem update_topic_result (file : progress_file) (topic : string)
    (is_correct : bool) :
  let before := state_of file topic in
  let stored := updated_state before is_correct in
  stored_state (update_topic file topic is_correct).2 topic = Some stored
  /\ (attempts before <> -1 ->
      exists result,
        (update_topic file topic is_correct).1 = Ok result
        /\ ur_topic result = topic
        /\ ur_attempts result = attempts before + 1
        /\ ur_difficulty result = difficulty stored
        /\ ur_mastered result = (MASTERY_THRESHOLD <=? p_known stored)%float)
  /\ (attempts before = -1 ->
      (update_topic file topic is_correct).1 = Raise ZeroDivisionError)
  /\ (all_well_formed file -> attempts before <> -1).
Proof.
  intros before stored. subst stored. split; [|split; [|split]].
  - rewrite update_topic_stored. now rewrite String.eqb_refl.
  - intros Hne. unfold update_topic, updated_state.
    pose proof (get_topic_state_fst file topic) as Hs. fold before in Hs.
    destruct (get_topic_state (load_progress file) topic) as [state p].
    cbn in Hs. subst state. cbn [attempts correct p_known difficulty].
    destruct (int_truediv _ (attempts before + 1)) as [rate|] eqn:E.
    + eexists. split; [reflexivity|]. cbn. repeat split.
    + apply int_truediv_None in E. lia.
  - intros Heq. unfold update_topic.
    pose proof (get_topic_state_fst file topic) as Hs. fold before in Hs.
    destruct (get_topic_state (load_progress file) topic) as [state p].
    cbn in Hs. subst state.
    destruct (int_truediv _ (attempts before + 1)) as [rate|] eqn:E; [|reflexivity].
    unfold int_truediv in E. rewrite Heq in E. discriminate.
  - intros Hall. destruct (state_of_well_formed file topic Hall) as [_ Hc _].
    fold before in Hc. lia.
Qed.

(** X20. A read right after an update shows what the update returned: the same
    mastery, attempts, difficulty, mastered flag and success rate; and it
    leaves the file as the update left it. *)
Theorem get_topic_mastery_after_update (file : progress_file) (topic : string)
    (is_correct : bool) :
  0 <= attempts (state_of file topic) ->
  let after := (update_topic file topic is_correct).2 in
  exists result,
    (update_topic file topic is_correct).1 = Ok result
    /\ (get_topic_mastery after topic).2 = after
    /\ mv_p_known (get_topic_mastery after topic).1 = ur_new_mastery result
    /\ mv_mastered (get_topic_mastery after topic).1 = ur_mastered result
    /\ mv_attempts (get_topic_mastery after topic).1 = ur_attempts result
    /\ mv_difficulty (get_topic_mastery after topic).1 = ur_difficulty result
    /\ mv_success_rate (get_topic_mastery after topic).1 = ur_success_rate result.
Proof.
  intros Hatt after.
  assert (stored_state after topic
          = Some (updated_state (state_of file topic) is_correct)) as Hst
      by (unfold after; rewrite update_topic_stored; now rewrite String.eqb_refl).
  assert (get_topic_state (load_progress after) topic
          = (updated_state (state_of file topic) is_correct, load_progress after)) as Hg
      by (apply get_topic_state_known; exact Hst).
  assert (Some (load_progress after) = after) as Hl
      by (unfold after; now rewrite update_topic_file).
  unfold get_topic_mastery. rewrite Hg. cbn [fst snd save_progress].
  unfold update_topic, updated_state.
  pose proof (get_topic_state_fst file topic) as Hs.
  destruct (get_topic_state (load_progress file) topic) as [state p].
  cbn in Hs. subst state. cbn [attempts correct p_known difficulty].
  destruct (int_truediv _ (attempts (state_of file topic) + 1)) as [rate|] eqn:E;
    [|apply int_truediv_None in E; lia].
  eexists. split; [reflexivity|]. split; [exact Hl|]. cbn.
  repeat split.
  unfold int_truediv in E.
  destruct (attempts (state_of file topic) + 1 =? 0); [discriminate|].
  injection E as <-.
  destruct (0 <? attempts (state_of file topic) + 1) eqn:E'; [reflexivity|].
  apply Z.ltb_ge in E'. lia.
Qed.

(** *** The status report *)

Lemma count_status_partition (topics : dict TopicState) :
  count_status mastered topics + count_status in_progress topics
  + count_status not_started topics
  = Z.of_nat (length topics).
Proof.
  unfold count_status. induction topics as [|[name state] topics IH]; [reflexivity|].
  cbn [List.filter snd length]. destruct (status_of state); cbn [status_eqb length]; lia.
Qed.

Lemma count_mastered_all (topics : dict TopicState) :
  count_status mastered topics = Z.of_nat (length topics)
  <-> forall name state, (name, state) ∈ topics -> status_of state = mastered.
Proof.
  unfold count_status. induction topics as [|[name state] topics IH].
  - split; [|reflexivity]. intros _ n st Hin. now apply elem_of_nil in Hin.
  - cbn [List.filter snd length].
    pose proof (List.filter_length_le
                  (fun kv : string * TopicState => status_eqb (status_of kv.2) mastered)
                  topics) as Hle.
    destruct (status_of state) eqn:E; cbn [status_eqb length].
    + split.
      * intros Hc n st [[= -> ->]|Hin]%elem_of_cons; [exact E|].
        apply IH in Hin; [exact Hin | lia].
      * intros Hall. assert (Z.of_nat (length (List.filter
                  (fun kv : string * TopicState => status_eqb (status_of kv.2) mastered)
                  topics)) = Z.of_nat (length topics)) as Heq.
        { apply IH. intros n st Hin. apply (Hall n). now apply list_elem_of_further. }
        lia.
    + split; [lia|]. intros Hall.
      specialize (Hall name state (list_elem_of_here _ _)). congruence.
    + split; [lia|]. intros Hall.
      specialize (Hall name state (list_elem_of_here _ _)). congruence.
Qed.

(** X21. In the report of [get_all_status] the three counts add up to the
    number of topics, which is the number of topics in the file; the topics
    are reported in the order of the file; and the file is left as it was.
    Without a file, or without topics, every count is zero. *)
Theorem get_all_status_counts (file : progress_file) :
  let report := (get_all_status file).1 in
  sv_mastered report + sv_in_progress report + sv_not_started report
  = sv_total_topics report
  /\ sv_total_topics report = Z.of_nat (length (stored_topics file))
  /\ (sv_topics report).*1 = stored_topics file
  /\ (get_all_status file).2 = file
  /\ (stored_topics file = [] ->
      sv_total_topics report = 0 /\ sv_mastered report = 0
      /\ sv_in_progress report = 0 /\ sv_not_started report = 0).
Proof.
  cbn. unfold stored_topics. repeat apply conj.
  - apply count_status_partition.
  - now rewrite length_fmap.
  - rewrite <- list_fmap_compose. reflexivity.
  - reflexivity.
  - intros Hempty%fmap_nil_inv. rewrite Hempty. repeat split.
Qed.

Lemma sort_candidates_nil (l : list candidate) : sort_candidates l = [] <-> l = [].
Proof.
  split; [|now intros ->]. intros Hs. apply elem_of_nil_inv. intros c Hc.
  apply elem_of_sort_candidates in Hc. rewrite Hs in Hc. now apply elem_of_nil in Hc.
Qed.

Lemma suggest_none (file : progress_file) :
  sg_suggestion (suggest_topic file).1 = None
  <-> candidates_of (default [] (load_progress file)) = [].
Proof.
  unfold suggest_topic. rewrite <- sort_candidates_nil.
  destruct (sort_candidates _) as [|[[topic mastery] attempts] rest]; cbn.
  - tauto.
  - split; discriminate.
Qed.

(** X22. When every stored [p_known] is a number, [suggest_topic] has nothing
    to suggest exactly when [get_all_status] counts every topic as
    mastered. *)
Theorem suggest_none_iff_all_mastered (file : progress_file) :
  Forall (fun state => is_number (p_known state)) (stored_states file) ->
  (sg_suggestion (suggest_topic file).1 = None
   <-> sv_mastered (get_all_status file).1 = sv_total_topics (get_all_status file).1).
Proof.
  intros Hnum. rewrite suggest_none. cbn [get_all_status fst sv_mastered sv_total_topics].
  rewrite count_mastered_all.
  assert (forall name state,
             (name, state) ∈ default [] (load_progress file) -> is_number (p_known state))
    as Hnum'.
  { intros name state Hin. unfold stored_states in Hnum. rewrite Forall_forall in Hnum.
    apply Hnum. apply list_elem_of_fmap. now exists (name, state). }
  split.
  - intros Hc name state Hin. unfold status_of.
    destruct (p_known state <? MASTERY_THRESHOLD)%float eqn:E.
    + assert ((name, p_known state, attempts state)
                ∈ candidates_of (default [] (load_progress file))) as Hin'
          by (apply elem_of_candidates_of; eauto).
      rewrite Hc in Hin'. now apply elem_of_nil in Hin'.
    + rewrite ltb_negb_leb in E by (eauto; reflexivity).
      apply negb_false_iff in E. now rewrite E.
  - intros Hall. apply elem_of_nil_inv. intros c Hc.
    apply elem_of_candidates_of in Hc as (name & state & Hin & Hlt & _).
    specialize (Hall name state Hin). unfold status_of in Hall. unfold flt in Hlt.
    rewrite ltb_negb_leb in Hlt by (eauto; reflexivity).
    apply negb_true_iff in Hlt. rewrite Hlt in Hall.
    destruct (0 <? attempts state); discriminate.
Qed.

(** *** Counting the updates *)

Lemma tracker_step_state_of (file : progress_file) (c : tracker_call) (topic : string) :
  state_of (tracker_step file c) topic
  = match c with
    | Update t b =>
        if String.eqb t topic then updated_state (state_of file topic) b
        else state_of file topic
    | _ => state_of file topic
    end.
Proof.
  destruct c as [t b|t| |]; [| |now rewrite tracker_step_read by auto..];
    unfold state_of at 1; cbn.
  - rewrite update_topic_stored, (String.eqb_sym topic t).
    destruct (String.eqb t topic) eqn:E; [|reflexivity].
    apply String.eqb_eq in E. now subst t.
  - rewrite get_topic_mastery_stored.
    destruct (String.eqb topic t) eqn:E; [|reflexivity].
    apply String.eqb_eq in E. now subst t.
Qed.

Lemma tracker_run_counts (file : progress_file) (calls : list tracker_call)
    (topic : string) :
  attempts (state_of (tracker_run file calls) topic)
  = attempts (state_of file topic) + Z.of_nat (length (updates_of topic calls))
  /\ correct (state_of (tracker_run file calls) topic)
     = correct (state_of file topic)
       + Z.of_nat (length (List.filter id (updates_of topic calls))).
Proof.
  revert file. induction calls as [|c calls IH]; intros file.
  - cbn. lia.
  - change (tracker_run file (c :: calls)) with (tracker_run (tracker_step file c) calls).
    destruct (IH (tracker_step file c)) as [Ha Hc]. rewrite Ha, Hc.
    rewrite tracker_step_state_of. unfold updates_of. cbn [omap list_omap].
    destruct c as [t b|t| |]; try (cbn; lia).
    destruct (String.eqb t topic); [|cbn; lia].
    cbn [attempts correct updated_state length List.filter].
    destruct b; cbn [id length]; lia.
Qed.

(** X23. [attempts] counts the updates and [correct] the correct ones: after
    any calls, the two fields of a topic are what they were (zero for a
    topic without a state) plus the number of its updates among the calls,
    and plus the number of those that were correct; so a topic that started
    without a state never has more correct answers than attempts. *)
Theorem attempts_count_updates (file : progress_file) (calls : list tracker_call)
    (topic : string) :
  attempts (state_of (tracker_run file calls) topic)
  = attempts (state_of file topic) + Z.of_nat (length (updates_of topic calls))
  /\ correct (state_of (tracker_run file calls) topic)
     = correct (state_of file topic)
       + Z.of_nat (length (List.filter id (updates_of topic calls)))
  /\ (stored_state file topic = None ->
      0 <= correct (state_of (tracker_run file calls) topic)
        <= attempts (state_of (tracker_run file calls) topic)).
Proof.
  destruct (tracker_run_counts file calls topic) as [Ha Hc].
  split; [exact Ha|]. split; [exact Hc|].
  intros Hnone. rewrite Ha, Hc. unfold state_of. rewrite Hnone. cbn.
  pose proof (List.filter_length_le id (updates_of topic calls)). lia.
Qed.

End Calls.

Lemma suggest_none_iff_all_mastered_witness :
  sg_suggestion (suggest_topic (H := example_runtime) example_progress).1 = None
  <-> sv_mastered (get_all_status (H := example_runtime) example_progress).1
      = sv_total_topics (get_all_status (H := example_runtime) example_progress).1.
Proof.
  apply (suggest_none_iff_all_mastered (H := example_runtime) example_progress).
  repeat constructor.
Defined.

Lemma get_topic_mastery_after_update_witness :
  exists result,
    (update_topic (H := example_runtime) example_progress "paging" true).1 = Ok result
    /\ mv_attempts
         (get_topic_mastery (H := example_runtime)
            (update_topic (H := example_runtime) example_progress "paging" true).2
            "paging").1
       = ur_attempts result.
Proof.
  destruct (get_topic_mastery_after_update (H := example_runtime)
              example_progress "paging" true)
    as (result & Hr & _ & _ & _ & Ha & _); [vm_compute; discriminate|].
  exists result. split; [exact Hr | exact Ha].
Defined.

End knowledge_tracker_life_spec.

(** ** The cheat sheet *)

Module cheat_sheet_builder_spec.

Import knowledge_tracker spaced_scheduler cheat_sheet_builder knowledge_tracker_life_spec.
Local Open Scope Z_scope.

Lemma load_bkt_state_stored (progress : progress_file) (topic : string) :
  load_bkt_state progress topic = stored_state progress topic.
Proof. now destruct progress. Qed.

Lemma in_cheat_sheet_spec (sheet : CheatSheet) (topic : string) :
  in_cheat_sheet sheet topic = true <-> topic ∈ map topic_id (items sheet).
Proof.
  unfold in_cheat_sheet. rewrite existsb_exists, list_elem_of_In. split.
  - intros (x & Hin & ->%String.eqb_eq). exact Hin.
  - intros Hin. exists topic. split; [exact Hin | apply String.eqb_refl].
Qed.

Lemma in_cheat_sheet_false (sheet : CheatSheet) (topic : string) :
  in_cheat_sheet sheet topic = false <-> topic ∉ map topic_id (items sheet).
Proof.
  rewrite <- in_cheat_sheet_spec. now destruct (in_cheat_sheet sheet topic).
Qed.

Lemma filter_all {A} (f : A -> bool) (l : list A) :
  length (List.filter f l) = length l -> List.filter f l = l.
Proof.
  induction l as [|x l IH]; cbn; [reflexivity|].
  pose proof (List.filter_length_le f l) as Hle.
  destruct (f x); cbn; intros Hlen; [f_equal; apply IH|]; lia.
Qed.

Lemma map_filter_topic (topic : string) (l : list Item) :
  map topic_id (List.filter (fun item => negb (String.eqb (topic_id item) topic)) l)
  = List.filter (fun t => negb (String.eqb t topic)) (map topic_id l).
Proof.
  induction l as [|x l IH]; cbn; [reflexivity|].
  destruct (String.eqb (topic_id x) topic); cbn; now rewrite IH.
Qed.

Lemma filter_absent (topic : string) (l : list string) :
  topic ∉ l -> List.filter (fun t => negb (String.eqb t topic)) l = l.
Proof.
  induction l as [|x l IH]; cbn; [reflexivity|].
  intros [Hne Hl]%not_elem_of_cons.
  destruct (String.eqb x topic) eqn:E; cbn.
  - apply String.eqb_eq in E. congruence.
  - now rewrite IH.
Qed.

(** X24. [check_suggest] suggests a topic exactly when the progress file has a
    state for it, the cheat sheet does not list it, its [p_known] is not
    0.5 or more, and it has at least 3 attempts.  So a topic the progress
    file did not know is not suggested while fewer than 3 updates of it
    have been recorded, whatever else the tracker was asked. *)
Theorem check_suggest_needs_three_updates `{PyRuntime} (progress : progress_file)
    (file : cheat_sheet_file) (topic : string) :
  ((check_suggest progress file topic).1 = true
   <-> exists bkt, stored_state progress topic = Some bkt
                   /\ (topic ∉ sheet_topics file)
                   /\ (0.5 <=? p_known bkt)%float = false
                   /\ 3 <= attempts bkt)
  /\ (forall calls : list tracker_call,
         stored_state progress topic = None ->
         (length (updates_of topic calls) < 3)%nat ->
         (check_suggest (tracker_run progress calls) file topic).1 = false).
Proof.
  assert (forall pr,
             (check_suggest pr file topic).1 = true
             <-> exists bkt, stored_state pr topic = Some bkt
                             /\ (topic ∉ sheet_topics file)
                             /\ (0.5 <=? p_known bkt)%float = false
                             /\ 3 <= attempts bkt) as Hiff.
  { intros pr. unfold check_suggest, sheet_topics. rewrite load_bkt_state_stored.
    destruct (stored_state pr topic) as [bkt|]; cbn.
    - destruct (in_cheat_sheet (load_cheat_sheet file) topic) eqn:Ein; cbn.
      + apply in_cheat_sheet_spec in Ein. split; [discriminate|].
        intros (b & _ & Hn & _). contradiction.
      + apply in_cheat_sheet_false in Ein.
        destruct (0.5 <=? p_known bkt)%float eqn:Ep; cbn.
        * split; [discriminate|]. intros (b & [= <-] & _ & Hp & _). congruence.
        * destruct (attempts bkt <? 3) eqn:Ea; cbn.
          -- apply Z.ltb_lt in Ea. split; [discriminate|].
             intros (b & [= <-] & _ & _ & Ha). lia.
          -- apply Z.ltb_ge in Ea. split; [|reflexivity]. intros _. eauto.
    - split; [discriminate|]. intros (b & [=] & _). }
  split; [apply Hiff|].
  intros calls Hnone Hfew.
  destruct (check_suggest (tracker_run progress calls) file topic).1 eqn:E; [|reflexivity].
  apply Hiff in E as (bkt & Hst & _ & _ & Ha).
  destruct (tracker_run_counts progress calls topic) as [Hcount _].
  unfold state_of in Hcount. rewrite Hst, Hnone in Hcount. cbn in Hcount. lia.
Qed.

Section Editing.
Variable titled : string -> string.

Lemma add_topic_topics (progress : progress_file) (file : cheat_sheet_file)
    (topic note : string) (now : datetime) :
  sheet_topics (add_topic titled progress file topic note now)
  = if in_cheat_sheet (load_cheat_sheet file) topic
    then sheet_topics file else sheet_topics file ++ [topic].
Proof.
  unfold add_topic, sheet_topics.
  destruct (in_cheat_sheet (load_cheat_sheet file) topic); [reflexivity|].
  cbn. now rewrite map_app.
Qed.

(** X25. After [add_topic] the cheat sheet lists the topic: last, behind the
    topics it had, when it was not listed, and where it was when it already
    was, the file then being left as it was.  So a second [add_topic]
    changes nothing, no topic gets listed twice, and [check_suggest] no
    longer suggests the topic.  The new item records the [p_known] the
    progress file holds for the topic, or 0 when it holds none. *)
Theorem add_topic_lists_once (progress : progress_file) (file : cheat_sheet_file)
    (topic note : string) (now : datetime) :
  let added := add_topic titled progress file topic note now in
  topic ∈ sheet_topics added
  /\ (topic ∈ sheet_topics file -> added = file)
  /\ (topic ∉ sheet_topics file ->
      sheet_topics added = sheet_topics file ++ [topic]
      /\ exists item,
          last (items (load_cheat_sheet added)) = Some item
          /\ topic_id item = topic
          /\ must_include item = false
          /\ p_known_when_added item
             = match stored_state progress topic with
               | Some bkt => p_known bkt
               | None => 0%float
               end)
  /\ (forall progress' note' now',
         add_topic titled progress' added topic note' now' = added)
  /\ (NoDup (sheet_topics file) -> NoDup (sheet_topics added))
  /\ (forall progress', (check_suggest progress' added topic).1 = false).
Proof.
  intros added.
  assert (topic ∈ sheet_topics added) as Hin.
  { unfold added. rewrite add_topic_topics.
    destruct (in_cheat_sheet (load_cheat_sheet file) topic) eqn:E.
    - now apply in_cheat_sheet_spec.
    - apply elem_of_app. right. apply list_elem_of_here. }
  assert (in_cheat_sheet (load_cheat_sheet added) topic = true) as Hin'
      by (now apply in_cheat_sheet_spec).
  repeat apply conj.
  - exact Hin.
  - intros Hold%in_cheat_sheet_spec. unfold added, add_topic. now rewrite Hold.
  - intros Hnew. pose proof Hnew as Hf%in_cheat_sheet_false. split.
    + unfold added. rewrite add_topic_topics. now rewrite Hf.
    + unfold added, add_topic. rewrite Hf. cbn. eexists.
      split; [apply last_snoc|]. cbn. rewrite load_bkt_state_stored. auto.
  - intros progress' note' now'. unfold add_topic at 1. now rewrite Hin'.
  - intros Hnd. unfold added. rewrite add_topic_topics.
    destruct (in_cheat_sheet (load_cheat_sheet file) topic) eqn:E; [exact Hnd|].
    apply in_cheat_sheet_false in E.
    apply NoDup_app. repeat split; [exact Hnd| |apply NoDup_singleton].
    intros x Hx ->%list_elem_of_singleton. contradiction.
  - intros progress'. unfold check_suggest.
    destruct (load_bkt_state progress' topic); [|reflexivity]. now rewrite Hin'.
Qed.

(** X26. After [remove_topic] the cheat sheet no longer lists the topic and
    lists every other topic as before, in the same order; removing a topic
    that is not listed leaves the file as it was (no file is created); and
    removing a topic right after adding it to a sheet that did not list it
    gives back the topics the sheet had. *)
Theorem remove_topic_unlists (file : cheat_sheet_file) (topic : string) :
  (topic ∉ sheet_topics (remove_topic file topic))
  /\ sheet_topics (remove_topic file topic)
     = List.filter (fun t => negb (String.eqb t topic)) (sheet_topics file)
  /\ (topic ∉ sheet_topics file -> remove_topic file topic = file)
  /\ (forall progress note now,
         topic ∉ sheet_topics file ->
         sheet_topics (remove_topic (add_topic titled progress file topic note now) topic)
         = sheet_topics file).
Proof.
  assert (forall f, sheet_topics (remove_topic f topic)
                    = List.filter (fun t => negb (String.eqb t topic)) (sheet_topics f))
    as Hfilter.
  { intros f. unfold remove_topic, sheet_topics.
    destruct (length _ =? length _)%nat eqn:E.
    - apply Nat.eqb_eq, filter_all in E. rewrite <- map_filter_topic. now rewrite E.
    - cbn. apply map_filter_topic. }
  repeat apply conj.
  - rewrite Hfilter, list_elem_of_In, filter_In. intros [_ Hne].
    now rewrite String.eqb_refl in Hne.
  - apply Hfilter.
  - intros Hnew. unfold remove_topic.
    assert (List.filter (fun item => negb (String.eqb (topic_id item) topic))
              (items (load_cheat_sheet file)) = items (load_cheat_sheet file)) as ->.
    { unfold sheet_topics in Hnew. induction (items (load_cheat_sheet file)) as [|x l IH];
        cbn; [reflexivity|].
      cbn in Hnew. apply not_elem_of_cons in Hnew as [Hne Hl].
      destruct (String.eqb (topic_id x) topic) eqn:E; cbn.
      - apply String.eqb_eq in E. congruence.
      - now rewrite IH. }
    now rewrite Nat.eqb_refl.
  - intros progress note now Hnew. rewrite Hfilter, add_topic_topics.
    pose proof Hnew as Hf%in_cheat_sheet_false. rewrite Hf.
    rewrite List.filter_app. cbn. rewrite String.eqb_refl. cbn.
    now rewrite app_nil_r, filter_absent.
Qed.

End Editing.

End cheat_sheet_builder_spec.
